(** * Product Management API: a shallow embedding of the query, search,
      SKU and authorization logic, with the properties of its specification.

    Sources embedded here: [app/models.py] (tables and their constraints),
    [app/schemas.py] (request payloads), [app/crud.py] (entity services),
    [app/search.py] (token search), [app/api/products.py] and
    [app/api/users.py] (endpoints).

    Modelling conventions.
    - A table is the list of its rows in storage order; a query without
      ORDER BY returns the rows in that order ([.first()] is the head of the
      filtered list, [.offset(n).limit(m)] drops and then keeps rows).
    - Text is [string] (8-bit characters); case folding and character classes
      are the ASCII ones, which is what SQLite's [lower] and the regular
      expression [[^A-Za-z0-9]] use.
    - A Python [int] is [Z]; the [Float] price column is [Q] (only compared,
      never computed with); a nullable column is an [option].
    - The server-assigned timestamps [created_at]/[updated_at] are not part of
      the model.
    - A service runs against the database and yields an outcome together with
      the database it leaves behind: an exception leaves it as it was. *)

From Stdlib Require Import List String Ascii ZArith NArith QArith Bool Lia.
From Stdlib Require Import Numbers.DecimalString.
Import ListNotations.

Local Open Scope string_scope.
Local Open Scope Z_scope.

Set Implicit Arguments.

(* ================================================================== *)
(** ** Python and SQL text primitives *)
(* ================================================================== *)

Module Text.

Definition code (c : ascii) : N := N_of_ascii c.

Definition is_upper (c : ascii) : bool := ((65 <=? code c) && (code c <=? 90))%N.
Definition is_lower (c : ascii) : bool := ((97 <=? code c) && (code c <=? 122))%N.
Definition is_digit (c : ascii) : bool := ((48 <=? code c) && (code c <=? 57))%N.

(** The complement of the class [[^A-Za-z0-9]]. *)
Definition is_alnum (c : ascii) : bool := is_upper c || is_lower c || is_digit c.

(** [str.isspace] on one ASCII character: TAB..CR, FS..US and the blank. *)
Definition is_space (c : ascii) : bool :=
  (((9 <=? code c) && (code c <=? 13)) || ((28 <=? code c) && (code c <=? 32)))%N.

Definition to_upper (c : ascii) : ascii :=
  if is_lower c then ascii_of_N (code c - 32) else c.
Definition to_lower (c : ascii) : ascii :=
  if is_upper c then ascii_of_N (code c + 32) else c.

Fixpoint smap (f : ascii -> ascii) (s : string) : string :=
  match s with
  | EmptyString => EmptyString
  | String c s' => String (f c) (smap f s')
  end.

Fixpoint sfilter (f : ascii -> bool) (s : string) : string :=
  match s with
  | EmptyString => EmptyString
  | String c s' => if f c then String c (sfilter f s') else sfilter f s'
  end.

Fixpoint sforall (f : ascii -> bool) (s : string) : bool :=
  match s with
  | EmptyString => true
  | String c s' => f c && sforall f s'
  end.

(** [s.upper()], [s.lower()] and SQL [lower(s)]. *)
Definition upper (s : string) : string := smap to_upper s.
Definition lower (s : string) : string := smap to_lower s.

(** [s[:n]] for a non-negative [n]. *)
Fixpoint take (n : nat) (s : string) : string :=
  match n, s with
  | O, _ => EmptyString
  | _, EmptyString => EmptyString
  | S n', String c s' => String c (take n' s')
  end.

(** Python truthiness of a string: [if s:]. *)
Definition truthy (s : string) : bool :=
  match s with EmptyString => false | String _ _ => true end.

(** [s.lstrip()], [s.rstrip()] and [s.strip()]. *)
Fixpoint lstrip (s : string) : string :=
  match s with
  | EmptyString => EmptyString
  | String c s' => if is_space c then lstrip s' else s
  end.

Fixpoint rstrip (s : string) : string :=
  match s with
  | EmptyString => EmptyString
  | String c s' =>
      match rstrip s' with
      | EmptyString => if is_space c then EmptyString else String c EmptyString
      | r => String c r
      end
  end.

Definition strip (s : string) : string := rstrip (lstrip s).

(** [re.sub(r'\s+', ' ', s)]: every maximal run of white space becomes one
    blank. [in_run] tells that the previous character was white space. *)
Fixpoint collapse_from (in_run : bool) (s : string) : string :=
  match s with
  | EmptyString => EmptyString
  | String c s' =>
      if is_space c
      then (if in_run then collapse_from true s' else String " " (collapse_from true s'))
      else String c (collapse_from false s')
  end.

Definition collapse_spaces (s : string) : string := collapse_from false s.

(** [s.split()]: the maximal runs of non-space characters, in order. [cur]
    is the word being read. *)
Fixpoint split_from (cur : string) (s : string) : list string :=
  match s with
  | EmptyString => if truthy cur then [cur] else []
  | String c s' =>
      if is_space c
      then (if truthy cur then cur :: split_from EmptyString s' else split_from EmptyString s')
      else split_from (cur ++ String c EmptyString) s'
  end.

Definition split (s : string) : list string := split_from EmptyString s.

(** SQL [text LIKE pat] as SQLite evaluates it, on operands that are
    already lower-cased: [%] stands for any run of characters, [_] for any
    single one, and there is no escape character. *)
Fixpoint like_match (pat text : string) {struct pat} : bool :=
  match pat with
  | EmptyString => negb (truthy text)
  | String c pat' =>
      if (c =? "%")%char then
        (fix any_suffix (t : string) : bool :=
           like_match pat' t
           || match t with
              | EmptyString => false
              | String _ t' => any_suffix t'
              end) text
      else
        match text with
        | EmptyString => false
        | String d text' => ((c =? "_")%char || (c =? d)%char) && like_match pat' text'
        end
  end.

(** [column.ilike(pat)], rendered [lower(column) LIKE lower(pat)]; a NULL
    column makes the comparison NULL, which a WHERE clause does not accept. *)
Definition ilike (column : option string) (pat : string) : bool :=
  match column with
  | None => false
  | Some s => like_match (lower pat) (lower s)
  end.

(** Substring test, the reading of "contains" used by the specification. *)
Fixpoint prefixb (s t : string) : bool :=
  match s, t with
  | EmptyString, _ => true
  | String _ _, EmptyString => false
  | String a s', String b t' => (a =? b)%char && prefixb s' t'
  end.

Fixpoint containsb (s t : string) : bool :=
  prefixb s t
  || match t with
     | EmptyString => false
     | String _ t' => containsb s t'
     end.





End Text.

(* ================================================================== *)
(** ** Data model ([app/models.py]) *)
(* ================================================================== *)

(** Python truthiness of a nullable Boolean column. *)
Definition is_true (b : option bool) : bool :=
  match b with Some true => true | _ => false end.

Module User.
Record t : Type := Build {
  id : Z;
  email : string;
  username : string;
  hashed_password : string;
  full_name : option string;
  is_active : option bool;
  is_superuser : option bool
}.
End User.

Module Product.
Record t : Type := Build {
  id : Z;
  name : string;
  description : option string;
  price : Q;
  stock_quantity : Z;
  category : option string;
  sku : string;
  is_active : option bool;
  owner_id : Z
}.
End Product.

(** The persistent store: the two tables. *)
Record Db : Type := MkDb {
  users : list User.t;
  products : list Product.t
}.

(** [.offset(n)] and [.limit(n)]; SQLite reads a negative offset as zero and a
    negative limit as no limit. *)
Definition sql_offset {A} (n : Z) (rows : list A) : list A := skipn (Z.to_nat n) rows.
Definition sql_limit {A} (n : Z) (rows : list A) : list A :=
  if n <? 0 then rows else firstn (Z.to_nat n) rows.

(** Equality of a nullable text column with a value: NULL equals nothing. *)
Definition col_eq (column : option string) (v : string) : bool :=
  match column with
  | None => false
  | Some s => String.eqb s v
  end.

(* ================================================================== *)
(** ** Read-only queries of [app/crud.py] *)
(* ================================================================== *)

Definition get_user (db : Db) (user_id : Z) : option User.t :=
  find (fun u => User.id u =? user_id) (users db).

Definition get_user_by_email (db : Db) (email : string) : option User.t :=
  find (fun u => String.eqb (User.email u) email) (users db).

Definition get_user_by_username (db : Db) (username : string) : option User.t :=
  find (fun u => String.eqb (User.username u) username) (users db).

Definition get_users (db : Db) (skip limit : Z) : list User.t :=
  sql_limit limit (sql_offset skip (users db)).

Definition get_product (db : Db) (product_id : Z) : option Product.t :=
  find (fun p => Product.id p =? product_id) (products db).

(** The lookup upper-cases its argument before comparing. *)
Definition get_product_by_sku (db : Db) (sku : string) : option Product.t :=
  find (fun p => String.eqb (Product.sku p) (Text.upper sku)) (products db).

(** Python truthiness of an optional string argument: [None] and the empty
    string are both false. *)
Definition given (arg : option string) : bool :=
  match arg with
  | Some s => Text.truthy s
  | None => false
  end.

(** The three-column search filter of [get_products]. *)
Definition search_filter (search : string) (p : Product.t) : bool :=
  let pat := "%" ++ search ++ "%" in
  Text.ilike (Some (Product.name p)) pat
  || Text.ilike (Product.description p) pat
  || Text.ilike (Some (Product.sku p)) pat.

(** The WHERE clause that [get_products] builds, filter by filter. *)
Definition products_filter (category search : option string) (min_price max_price : option Q)
    (active_only : bool) (p : Product.t) : bool :=
  (if active_only then is_true (Product.is_active p) else true)
  && (if given category
      then match category with Some c => col_eq (Product.category p) c | None => true end
      else true)
  && (if given search
      then match search with Some s => search_filter s p | None => true end
      else true)
  && match min_price with
     | Some lo => Qle_bool lo (Product.price p)
     | None => true
     end
  && match max_price with
     | Some hi => Qle_bool (Product.price p) hi
     | None => true
     end.

Definition get_products (db : Db) (skip limit : Z) (category search : option string)
    (min_price max_price : option Q) (active_only : bool) : list Product.t :=
  sql_limit limit
    (sql_offset skip
       (filter (products_filter category search min_price max_price active_only) (products db))).

(** The defaults of [get_products]: [skip = 0] and [limit = 100]. *)
Definition default_skip : Z := 0.
Definition default_limit : Z := 100.

Definition get_products_by_owner (db : Db) (owner_id skip limit : Z) : list Product.t :=
  sql_limit limit (sql_offset skip (filter (fun p => Product.owner_id p =? owner_id) (products db))).

(* ================================================================== *)
(** ** Product listing endpoint ([app/api/products.py]) *)
(* ================================================================== *)

Record PaginatedResponse : Type := MkPage {
  items : list Product.t;
  total : Z;
  page : Z;
  size : Z;
  pages : Z
}.

(** [GET /products], for a caller whom the authentication dependency let
    through. The count behind [total] calls [get_products] without [skip] and
    [limit], so that call runs with their defaults. Python's [//] is floor
    division, which is [Z.div]. *)
Definition read_products (db : Db) (skip limit : Z) (category search : option string)
    (min_price max_price : option Q) (active_only : bool) : PaginatedResponse :=
  let products := get_products db skip limit category search min_price max_price active_only in
  let total_products :=
    Z.of_nat (List.length (get_products db default_skip default_limit category search
                             min_price max_price active_only)) in
  let pages := (total_products + limit - 1) / limit in
  let page := (skip / limit) + 1 in
  MkPage products total_products page limit pages.

(** The number of stored records that match the filters, whatever [skip] and
    [limit] are. *)
Definition matching_count (db : Db) (category search : option string)
    (min_price max_price : option Q) (active_only : bool) : Z :=
  Z.of_nat (List.length (filter (products_filter category search min_price max_price active_only)
                           (products db))).

(** Ceiling of the quotient of a non-negative count by a positive page size. *)
Definition ceil_div (a b : Z) : Z := if a mod b =? 0 then a / b else a / b + 1.

(* ================================================================== *)
(** ** Token search ([app/search.py]) *)
(* ================================================================== *)

(** [re.sub(r'\s+', ' ', query.lower().strip()).split()]. *)
Definition query_tokens (query : string) : list string :=
  Text.split (Text.collapse_spaces (Text.strip (Text.lower query))).

(** The tokens that contribute a condition: those of length at least 2. *)
Definition kept_tokens (query : string) : list string :=
  filter (fun token => (2 <=? String.length token)%nat) (query_tokens query).

(** The condition built for one token: four [ilike] tests joined by OR. *)
Definition token_condition (token : string) (p : Product.t) : bool :=
  let pat := "%" ++ token ++ "%" in
  Text.ilike (Some (Product.name p)) pat
  || Text.ilike (Product.description p) pat
  || Text.ilike (Product.category p) pat
  || Text.ilike (Some (Product.sku p)) pat.

Definition full_text_search (db : Db) (query : string) (limit : Z) : list Product.t :=
  if negb (Text.truthy query) then []
  else
    let tokens := query_tokens query in
    match tokens with
    | [] => []
    | _ =>
        let search_conditions := map token_condition (kept_tokens query) in
        match search_conditions with
        | [] => []
        | _ =>
            let combined_condition p := existsb (fun cond => cond p) search_conditions in
            sql_limit limit
              (filter (fun p => combined_condition p && is_true (Product.is_active p))
                 (products db))
        end
    end.




(* ================================================================== *)
(** ** Services: outcomes, the store's constraints, commit *)
(* ================================================================== *)

(** What a call ends with: a value, the [HTTPException] it raised, or the
    [IntegrityError] with which the store refused a commit. *)
Inductive outcome (A : Type) : Type :=
| Ok (a : A)
| HTTPException (status_code : Z) (detail : string)
| IntegrityError.

Arguments Ok {A} a.
Arguments HTTPException {A} status_code detail.
Arguments IntegrityError {A}.

(** A service maps the store to an outcome and the store it leaves. *)
Definition service (A : Type) : Type := Db -> outcome A * Db.

Definition ret {A} (a : A) : service A := fun db => (Ok a, db).

Definition raise {A} (status_code : Z) (detail : string) : service A :=
  fun db => (HTTPException status_code detail, db).

Definition bind {A B} (c : service A) (k : A -> service B) : service B :=
  fun db =>
    match c db with
    | (Ok a, db') => k a db'
    | (HTTPException status_code detail, db') => (HTTPException status_code detail, db')
    | (IntegrityError, db') => (IntegrityError, db')
    end.

Definition query {A} (q : Db -> A) : service A := fun db => (Ok (q db), db).

Declare Scope service_scope.
Delimit Scope service_scope with service.
Notation "x <- c ;; k" := (bind c (fun x => k))
  (at level 61, c at next level, right associativity) : service_scope.
Notation "c ;; k" := (bind c (fun _ => k))
  (at level 61, right associativity) : service_scope.

Fixpoint distinct_by {A} (eqb : A -> A -> bool) (l : list A) : bool :=
  match l with
  | [] => true
  | x :: l' => negb (existsb (eqb x) l') && distinct_by eqb l'
  end.

(** The constraints that [app/models.py] declares and the store enforces:
    primary keys, the UNIQUE columns [email], [username] and [sku], and the
    two CHECK constraints of the products table. (NOT NULL is carried by the
    types of the rows.) *)
Definition db_ok (db : Db) : bool :=
  distinct_by Z.eqb (map User.id (users db))
  && distinct_by String.eqb (map User.email (users db))
  && distinct_by String.eqb (map User.username (users db))
  && distinct_by Z.eqb (map Product.id (products db))
  && distinct_by String.eqb (map Product.sku (products db))
  && forallb (fun p => Qle_bool 0 (Product.price p) && (0 <=? Product.stock_quantity p))
       (products db).

(** [db.commit()]: the pending state becomes the store unless it breaks a
    constraint, in which case the transaction is lost and the store stays. *)
Definition commit (pending : Db) : service unit :=
  fun db => if db_ok pending then (Ok tt, pending) else (IntegrityError, db).

(** The flush of a row holding NULL in a NOT NULL column. *)
Definition flush_rejected {A} : service A := fun db => (IntegrityError, db).

(** The key of a fresh row: one more than the largest key in the table. *)
Definition next_id (ids : list Z) : Z := 1 + fold_right Z.max 0 ids.

(* ================================================================== *)
(** ** Request payloads ([app/schemas.py]) *)
(* ================================================================== *)

Record UserCreate : Type := MkUserCreate {
  uc_email : string;
  uc_username : string;
  uc_full_name : option string;
  uc_password : string
}.

(** A field of an update payload is unset ([None]), or set to a value that may
    be [null] ([Some None]). [UserUpdate] declares four fields; there is none
    for [is_superuser]. *)
Record UserUpdate : Type := MkUserUpdate {
  uu_email : option (option string);
  uu_username : option (option string);
  uu_full_name : option (option string);
  uu_is_active : option (option bool)
}.

(** [ProductUpdate] declares six fields; there is none for [sku]. *)
Record ProductUpdate : Type := MkProductUpdate {
  pu_name : option (option string);
  pu_description : option (option string);
  pu_price : option (option Q);
  pu_stock_quantity : option (option Z);
  pu_category : option (option string);
  pu_is_active : option (option bool)
}.

(** The JSON object sent to [PUT /products/{id}]: the declared fields and,
    possibly, a [sku] key. Keys that the schema does not declare are ignored
    when the object is read into a [ProductUpdate]. *)
Record ProductUpdateBody : Type := MkProductUpdateBody {
  body_fields : ProductUpdate;
  body_sku : option (option string)
}.

Definition ProductUpdate_parse (body : ProductUpdateBody) : ProductUpdate := body_fields body.

(** An entry of the dictionary [user_update.dict(exclude_unset=True)]. *)
Inductive user_item : Type :=
| U_email (v : option string)
| U_username (v : option string)
| U_full_name (v : option string)
| U_is_active (v : option bool).

Definition user_item_key (item : user_item) : string :=
  match item with
  | U_email _ => "email"
  | U_username _ => "username"
  | U_full_name _ => "full_name"
  | U_is_active _ => "is_active"
  end.

(** An entry of a product update dictionary. [P_sku] is the entry that
    [update_product] deletes. *)
Inductive product_item : Type :=
| P_name (v : option string)
| P_description (v : option string)
| P_price (v : option Q)
| P_stock_quantity (v : option Z)
| P_category (v : option string)
| P_is_active (v : option bool)
| P_sku (v : option string).

Definition product_item_key (item : product_item) : string :=
  match item with
  | P_name _ => "name"
  | P_description _ => "description"
  | P_price _ => "price"
  | P_stock_quantity _ => "stock_quantity"
  | P_category _ => "category"
  | P_is_active _ => "is_active"
  | P_sku _ => "sku"
  end.

Definition entry {A I} (mk : option A -> I) (field : option (option A)) : list I :=
  match field with
  | Some v => [mk v]
  | None => []
  end.

(** [.dict(exclude_unset=True)]: the set fields, in declaration order. *)
Definition UserUpdate_dict (u : UserUpdate) : list user_item :=
  entry U_email (uu_email u) ++ entry U_username (uu_username u)
  ++ entry U_full_name (uu_full_name u) ++ entry U_is_active (uu_is_active u).

Definition ProductUpdate_dict (u : ProductUpdate) : list product_item :=
  entry P_name (pu_name u) ++ entry P_description (pu_description u)
  ++ entry P_price (pu_price u) ++ entry P_stock_quantity (pu_stock_quantity u)
  ++ entry P_category (pu_category u) ++ entry P_is_active (pu_is_active u).

(** [key in d] and [del d[key]]. *)
Definition dict_has {I} (key_of : I -> string) (key : string) (d : list I) : bool :=
  existsb (fun item => String.eqb (key_of item) key) d.

Definition dict_del {I} (key_of : I -> string) (key : string) (d : list I) : list I :=
  filter (fun item => negb (String.eqb (key_of item) key)) d.

(** [setattr(row, field, value)]. The result is [None] when the row now holds
    NULL in a column declared [nullable=False], a row that cannot be flushed. *)
Definition user_setattr (u : User.t) (item : user_item) : option User.t :=
  match item with
  | U_email (Some v) =>
      Some (User.Build (User.id u) v (User.username u) (User.hashed_password u)
              (User.full_name u) (User.is_active u) (User.is_superuser u))
  | U_email None => None
  | U_username (Some v) =>
      Some (User.Build (User.id u) (User.email u) v (User.hashed_password u)
              (User.full_name u) (User.is_active u) (User.is_superuser u))
  | U_username None => None
  | U_full_name v =>
      Some (User.Build (User.id u) (User.email u) (User.username u) (User.hashed_password u)
              v (User.is_active u) (User.is_superuser u))
  | U_is_active v =>
      Some (User.Build (User.id u) (User.email u) (User.username u) (User.hashed_password u)
              (User.full_name u) v (User.is_superuser u))
  end.

Definition product_setattr (p : Product.t) (item : product_item) : option Product.t :=
  match item with
  | P_name (Some v) =>
      Some (Product.Build (Product.id p) v (Product.description p) (Product.price p)
              (Product.stock_quantity p) (Product.category p) (Product.sku p)
              (Product.is_active p) (Product.owner_id p))
  | P_name None => None
  | P_description v =>
      Some (Product.Build (Product.id p) (Product.name p) v (Product.price p)
              (Product.stock_quantity p) (Product.category p) (Product.sku p)
              (Product.is_active p) (Product.owner_id p))
  | P_price (Some v) =>
      Some (Product.Build (Product.id p) (Product.name p) (Product.description p) v
              (Product.stock_quantity p) (Product.category p) (Product.sku p)
              (Product.is_active p) (Product.owner_id p))
  | P_price None => None
  | P_stock_quantity (Some v) =>
      Some (Product.Build (Product.id p) (Product.name p) (Product.description p)
              (Product.price p) v (Product.category p) (Product.sku p)
              (Product.is_active p) (Product.owner_id p))
  | P_stock_quantity None => None
  | P_category v =>
      Some (Product.Build (Product.id p) (Product.name p) (Product.description p)
              (Product.price p) (Product.stock_quantity p) v (Product.sku p)
              (Product.is_active p) (Product.owner_id p))
  | P_is_active v =>
      Some (Product.Build (Product.id p) (Product.name p) (Product.description p)
              (Product.price p) (Product.stock_quantity p) (Product.category p)
              (Product.sku p) v (Product.owner_id p))
  | P_sku (Some v) =>
      Some (Product.Build (Product.id p) (Product.name p) (Product.description p)
              (Product.price p) (Product.stock_quantity p) (Product.category p) v
              (Product.is_active p) (Product.owner_id p))
  | P_sku None => None
  end.

(** [for field, value in update_data.items(): setattr(row, field, value)]. *)
Definition setattr_all {R I} (setattr : R -> I -> option R) (row : R) (update_data : list I)
    : option R :=
  fold_left (fun acc item => match acc with Some r => setattr r item | None => None end)
    update_data (Some row).

(* ================================================================== *)
(** ** User services ([app/crud.py]) *)
(* ================================================================== *)

Local Open Scope service_scope.

Definition with_users (db : Db) (rows : list User.t) : Db := MkDb rows (products db).
Definition with_products (db : Db) (rows : list Product.t) : Db := MkDb (users db) rows.

(** [get_password_hash] lives in [app/auth.py], which is not among the
    sources; the services take it as a parameter. The new row gets the column
    defaults [is_active = True] and [is_superuser = False]. *)
Definition create_user (get_password_hash : string -> string) (user : UserCreate)
    : service User.t :=
  by_email <- query (fun db => get_user_by_email db (uc_email user)) ;;
  match by_email with
  | Some _ => raise 400 "Email already registered"
  | None =>
      by_username <- query (fun db => get_user_by_username db (uc_username user)) ;;
      match by_username with
      | Some _ => raise 400 "Username already taken"
      | None =>
          let hashed_password := get_password_hash (uc_password user) in
          fun db =>
            let db_user :=
              User.Build (next_id (map User.id (users db))) (uc_email user) (uc_username user)
                hashed_password (uc_full_name user) (Some true) (Some false) in
            (commit (with_users db (users db ++ [db_user])) ;; ret db_user) db
      end
  end.

Definition dict_email (update_data : list user_item) : option (option string) :=
  match find (fun item => String.eqb (user_item_key item) "email") update_data with
  | Some (U_email v) => Some v
  | _ => None
  end.

Definition dict_username (update_data : list user_item) : option (option string) :=
  match find (fun item => String.eqb (user_item_key item) "username") update_data with
  | Some (U_username v) => Some v
  | _ => None
  end.

(** A look-up by a value that may be [None]: no row has NULL in a NOT NULL
    column. *)
Definition lookup_by {A} (get : Db -> string -> option A) (db : Db) (v : option string)
    : option A :=
  match v with
  | Some s => get db s
  | None => None
  end.

(** [existing_user and existing_user.id != user_id]. *)
Definition taken_by_other (existing_user : option User.t) (user_id : Z) : bool :=
  match existing_user with
  | Some existing => negb (User.id existing =? user_id)
  | None => false
  end.

(** The UPDATE that a flush emits for a changed row, by primary key. *)
Definition replace_user (row : User.t) (rows : list User.t) : list User.t :=
  map (fun u => if User.id u =? User.id row then row else u) rows.

Definition update_user (user_id : Z) (user_update : UserUpdate) : service User.t :=
  found <- query (fun db => get_user db user_id) ;;
  match found with
  | None => raise 404 "User not found"
  | Some db_user =>
      let update_data := UserUpdate_dict user_update in
      email_taken <- query (fun db =>
        match dict_email update_data with
        | Some v => taken_by_other (lookup_by get_user_by_email db v) user_id
        | None => false
        end) ;;
      if email_taken then raise 400 "Email already registered"
      else
        username_taken <- query (fun db =>
          match dict_username update_data with
          | Some v => taken_by_other (lookup_by get_user_by_username db v) user_id
          | None => false
          end) ;;
        if username_taken then raise 400 "Username already taken"
        else
          match setattr_all user_setattr db_user update_data with
          | None => flush_rejected
          | Some row =>
              fun db => (commit (with_users db (replace_user row (users db))) ;; ret row) db
          end
  end.

(** [db.delete(db_user); db.commit()]. In [app/models.py] the relationship
    is [products = relationship("Product", back_populates="owner")], without
    a delete cascade, and the foreign key is
    [owner_id = Column(Integer, ForeignKey("users.id"), nullable=False)].
    When the deletion is flushed, the unit of work therefore detaches the
    user's products by writing NULL to their [owner_id], and the store
    refuses that write to a NOT NULL column: the commit raises
    [IntegrityError] and nothing is deleted. A user who owns no product is
    simply removed. *)
Definition delete_user (user_id : Z) : service bool :=
  found <- query (fun db => get_user db user_id) ;;
  match found with
  | None => raise 404 "User not found"
  | Some db_user =>
      fun db =>
        if existsb (fun p => Product.owner_id p =? User.id db_user) (products db)
        then flush_rejected db
        else
          (commit (with_users db
                     (filter (fun u => negb (User.id u =? User.id db_user)) (users db))) ;;
           ret true) db
  end.

(* ================================================================== *)
(** ** Product services ([app/crud.py]) *)
(* ================================================================== *)

Definition replace_product (row : Product.t) (rows : list Product.t) : list Product.t :=
  map (fun p => if Product.id p =? Product.id row then row else p) rows.

Definition update_product (product_id : Z) (product_update : ProductUpdate)
    (current_user : User.t) : service Product.t :=
  found <- query (fun db => get_product db product_id) ;;
  match found with
  | None => raise 404 "Product not found"
  | Some db_product =>
      if negb (Product.owner_id db_product =? User.id current_user)
         && negb (is_true (User.is_superuser current_user))
      then raise 403 "Not enough permissions to update this product"
      else
        let update_data := ProductUpdate_dict product_update in
        let update_data :=
          if dict_has product_item_key "sku" update_data
          then dict_del product_item_key "sku" update_data
          else update_data in
        match setattr_all product_setattr db_product update_data with
        | None => flush_rejected
        | Some row =>
            fun db => (commit (with_products db (replace_product row (products db))) ;; ret row) db
        end
  end.

Definition delete_product (product_id : Z) (current_user : User.t) : service bool :=
  found <- query (fun db => get_product db product_id) ;;
  match found with
  | None => raise 404 "Product not found"
  | Some db_product =>
      if negb (Product.owner_id db_product =? User.id current_user)
         && negb (is_true (User.is_superuser current_user))
      then raise 403 "Not enough permissions to delete this product"
      else
        fun db =>
          (commit (with_products db
                     (filter (fun p => negb (Product.id p =? Product.id db_product))
                        (products db))) ;;
           ret true) db
  end.

(* ================================================================== *)
(** ** Endpoints ([app/api/products.py], [app/api/users.py], [app/api/auth.py]) *)
(* ================================================================== *)

(** Modelled from the spec: the dependency [get_current_active_user] of
    [app/auth.py], which is not among the sources. Section 4.2,
    [require_active(user)]: fails with [InactiveAccount] if the active flag is
    false; section 7 maps [InactiveAccount] to status 400. *)
Definition get_current_active_user (user : User.t) : outcome User.t :=
  match User.is_active user with
  | Some false => HTTPException 400 "InactiveAccount"
  | _ => Ok user
  end.

(** Modelled from the spec: the dependency [get_current_superuser] of
    [app/auth.py], which is not among the sources. Section 4.2,
    [require_superuser(user)]: fails with [Forbidden] if not superuser;
    section 7 maps [Forbidden] to status 403. The specification names the
    error and not its message; the detail carries the name. *)
Definition get_current_superuser (user : User.t) : outcome User.t :=
  if is_true (User.is_superuser user) then Ok user
  else HTTPException 403 "Forbidden".

(** A dependency is resolved before the endpoint's body runs. *)
Definition depends {A} (dependency : outcome User.t) (body : User.t -> service A) : service A :=
  fun db =>
    match dependency with
    | Ok current_user => body current_user db
    | HTTPException status_code detail => (HTTPException status_code detail, db)
    | IntegrityError => (IntegrityError, db)
    end.

Definition register (get_password_hash : string -> string) (user : UserCreate)
    : service User.t :=
  create_user get_password_hash user.

Definition update_existing_product (product_id : Z) (body : ProductUpdateBody)
    (user : User.t) : service Product.t :=
  depends (get_current_active_user user) (fun current_user =>
    update_product product_id (ProductUpdate_parse body) current_user).

Definition delete_existing_product (product_id : Z) (user : User.t) : service string :=
  depends (get_current_active_user user) (fun current_user =>
    delete_product product_id current_user ;;
    ret "Product deleted successfully").

Definition update_existing_user (user_id : Z) (user_update : UserUpdate) (user : User.t)
    : service User.t :=
  depends (get_current_superuser user) (fun current_user =>
    update_user user_id user_update).

Definition delete_existing_user (user_id : Z) (user : User.t) : service string :=
  depends (get_current_superuser user) (fun current_user =>
    if user_id =? User.id current_user
    then raise 400 "Cannot delete your own account"
    else
      delete_user user_id ;;
      ret "User deleted successfully").

(** The superuser flag of every stored user, by primary key. *)
Definition superuser_flags (db : Db) : list (Z * option bool) :=
  map (fun u => (User.id u, User.is_superuser u)) (users db).

(** The status of the error response, as the handlers of [app/main.py] set
    it: the status of an [HTTPException], 500 for any other exception; [None]
    for a success. *)
Definition error_status {A} (o : outcome A) : option Z :=
  match o with
  | Ok _ => None
  | HTTPException status_code _ => Some status_code
  | IntegrityError => Some 500
  end.

(** The rule of the specification for changing a product: the acting user
    owns it or is a superuser. *)
Definition can_modify_product (user : User.t) (product : Product.t) : bool :=
  (User.id user =? Product.owner_id product) || is_true (User.is_superuser user).

(** What an update may and may not do to a row, field by field: the SKU, the
    key and the owner stay; a field that the payload leaves unset stays; a
    field that the payload sets holds the value sent. *)
Definition identity_kept (before after : Product.t) : Prop :=
  Product.sku after = Product.sku before
  /\ Product.id after = Product.id before
  /\ Product.owner_id after = Product.owner_id before.

Definition unset_fields_kept (u : ProductUpdate) (before after : Product.t) : Prop :=
  (pu_name u = None -> Product.name after = Product.name before)
  /\ (pu_description u = None -> Product.description after = Product.description before)
  /\ (pu_price u = None -> Product.price after = Product.price before)
  /\ (pu_stock_quantity u = None -> Product.stock_quantity after = Product.stock_quantity before)
  /\ (pu_category u = None -> Product.category after = Product.category before)
  /\ (pu_is_active u = None -> Product.is_active after = Product.is_active before).

Definition set_fields_applied (u : ProductUpdate) (after : Product.t) : Prop :=
  (forall v, pu_name u = Some v -> v = Some (Product.name after))
  /\ (forall v, pu_description u = Some v -> v = Product.description after)
  /\ (forall v, pu_price u = Some v -> v = Some (Product.price after))
  /\ (forall v, pu_stock_quantity u = Some v -> v = Some (Product.stock_quantity after))
  /\ (forall v, pu_category u = Some v -> v = Product.category after)
  /\ (forall v, pu_is_active u = Some v -> v = Product.is_active after).

(* ================================================================== *)
(** ** SKU generation ([app/crud.py]) *)
(* ================================================================== *)

Local Close Scope service_scope.

(** [re.sub(r'[^A-Za-z0-9]', '', base_name).upper()[:8]], or [PROD] when
    nothing is left. *)
Definition clean_base_name (base_name : string) : string :=
  let clean_name := Text.upper (Text.sfilter Text.is_alnum base_name) in
  let clean_name := Text.take 8 clean_name in
  if negb (Text.truthy clean_name) then "PROD" else clean_name.

Fixpoint zeros (n : nat) : string :=
  match n with
  | O => EmptyString
  | S n' => String "0" (zeros n')
  end.

(** The format [{counter:04d}] of a non-negative counter: its decimal digits,
    padded with zeros on the left up to four characters. *)
Definition format_04d (counter : Z) : string :=
  let digits := NilZero.string_of_uint (N.to_uint (Z.to_N counter)) in
  zeros (4 - String.length digits) ++ digits.

Definition counter_sku (clean_name : string) (counter : Z) : string :=
  clean_name ++ "-" ++ format_04d counter.

(** How the first [while True] loop ends: it returns a SKU, or it breaks
    because the counter passed 9999. [OutOfSteps] is the model running out of
    its step budget; [counter_loop_never_out_of_steps] shows that the budget
    used by [generate_unique_sku] is never exhausted. *)
Inductive loop_exit : Type :=
| Returned (sku : string)
| Broke
| OutOfSteps.

Fixpoint counter_loop (db : Db) (clean_name : string) (steps : nat) (counter : Z) : loop_exit :=
  match steps with
  | O => OutOfSteps
  | S steps' =>
      let sku := counter_sku clean_name counter in
      match get_product_by_sku db sku with
      | None => Returned sku
      | Some _ =>
          let counter := counter + 1 in
          if counter >? 9999 then Broke
          else counter_loop db clean_name steps' counter
      end
  end.

(** [str.replace('-', '')]. *)
Definition remove_hyphens (s : string) : string :=
  Text.sfilter (fun c => negb (c =? "-")%char) s.

(** [str(uuid.uuid4()).replace('-', '')[:8].upper()], from the text of the
    UUID drawn. *)
Definition uuid_part (uuid_text : string) : string :=
  Text.upper (Text.take 8 (remove_hyphens uuid_text)).

Definition random_sku (clean_name : string) (uuid_text : string) : string :=
  clean_name ++ "-" ++ uuid_part uuid_text.

(** The second [while True] loop. [uuid4 i] is the text of the UUID drawn at
    the [i]-th call of [uuid.uuid4()]; [draw] counts the calls made so far.
    The loop has no bound of its own: [fuel] bounds the number of draws the
    model follows, and [None] means that the bound was reached. *)
Fixpoint random_loop (db : Db) (clean_name : string) (uuid4 : nat -> string)
    (fuel : nat) (draw : nat) : option string :=
  match fuel with
  | O => None
  | S fuel' =>
      let sku := random_sku clean_name (uuid4 draw) in
      match get_product_by_sku db sku with
      | None => Some sku
      | Some _ => random_loop db clean_name uuid4 fuel' (S draw)
      end
  end.

Definition generate_unique_sku (db : Db) (base_name : option string)
    (uuid4 : nat -> string) (fuel : nat) : option string :=
  if given base_name then
    let clean_name :=
      match base_name with
      | Some b => clean_base_name b
      | None => "PROD"
      end in
    match counter_loop db clean_name (Z.to_nat 9999) 1 with
    | Returned sku => Some sku
    | Broke => random_loop db clean_name uuid4 fuel 0
    | OutOfSteps => None
    end
  else random_loop db "PROD" uuid4 fuel 0.

(** A SKU is free when no stored product carries it. *)
Definition sku_free (db : Db) (sku : string) : Prop :=
  forall p, In p (products db) -> Product.sku p <> sku.

(** The prefix of the SKUs that [generate_unique_sku] tries: the cleaned base
    name, and [PROD] when there is none ([clean_base_name] of the empty
    string is [PROD] too). *)
Definition clean_name_of (base_name : option string) : string :=
  match base_name with
  | Some b => clean_base_name b
  | None => "PROD"
  end.

(** The text of a version-4 UUID, for the examples. *)
Definition sample_uuid (draw : nat) : string :=
  match draw with
  | O => "9f1c2ab4-7d3e-4c15-8a6b-0e5d4c3b2a19"
  | _ => "123e4567-e89b-42d3-a456-426614174000"
  end.

(* ================================================================== *)
(** ** Sample data, used by the examples and the concrete evaluations *)
(* ================================================================== *)

Definition admin : User.t :=
  User.Build 1 "admin@example.com" "admin" "<hash>" (Some "System Administrator")
    (Some true) (Some true).

Definition testuser : User.t :=
  User.Build 2 "user@example.com" "testuser" "<hash>" (Some "Test User")
    (Some true) (Some false).

Definition otheruser : User.t :=
  User.Build 3 "other@example.com" "other" "<hash>" None (Some true) (Some false).

(** The three products of the search example of the specification. *)
Definition laptop : Product.t :=
  Product.Build 1 "Gaming Laptop Pro" (Some "High-performance gaming laptop with RTX 4080 graphics")
    (249999 # 100) 25 (Some "Electronics") "GAMINGLA-0001" (Some true) 2.

Definition headphones : Product.t :=
  Product.Build 2 "Wireless Bluetooth Headphones"
    (Some "Noise-cancelling wireless headphones with premium sound quality")
    (19999 # 100) 150 (Some "Electronics") "WIRELESS-0001" (Some true) 2.

Definition coffee : Product.t :=
  Product.Build 3 "Organic Coffee Beans"
    (Some "Premium organic coffee beans from Colombia, medium roast")
    (2499 # 100) 200 (Some "Food & Beverages") "ORGANICC-0001" (Some true) 2.

Definition sample_db : Db := MkDb [admin; testuser; otheruser] [laptop; headphones; coffee].

(** A store with [n] active products, numbered from 1, all owned by user 2. *)
Definition numbered_product (i : nat) : Product.t :=
  Product.Build (Z.of_nat i) "Widget" None (1 # 1) 1 None
    ("WIDGET-" ++ NilZero.string_of_uint (Nat.to_uint i)) (Some true) 2.

Definition store_of (n : nat) : Db := MkDb [admin; testuser] (map numbered_product (seq 1 n)).

(* ================================================================== *)
(** ** Product creation ([app/schemas.py], [app/crud.py]) *)
(* ================================================================== *)

Record ProductCreate : Type := MkProductCreate {
  pc_name : string;
  pc_description : option string;
  pc_price : Q;
  pc_stock_quantity : Z;
  pc_category : option string;
  pc_sku : option string
}.

(** [str.isalnum()]: at least one character, and all of them alphanumeric. *)
Definition isalnum (s : string) : bool := Text.truthy s && Text.sforall Text.is_alnum s.

(** [c in '_-']. *)
Definition is_underscore_or_hyphen (c : ascii) : bool := (c =? "_")%char || (c =? "-")%char.

(** The validator [validate_sku] of [ProductCreate]: [None] is the
    [ValueError] it raises, [Some] the value it returns. *)
Definition validate_sku (v : option string) : option (option string) :=
  match v with
  | Some s =>
      if negb (isalnum s)
         && negb (Text.sforall is_underscore_or_hyphen
                    (Text.sfilter (fun c => negb (Text.is_alnum c)) s))
      then None
      else Some (Some (Text.upper s))
  | None => Some None
  end.

(** The characters that the field pattern [^[A-Z0-9_-]+$] admits. *)
Definition sku_char (c : ascii) : bool :=
  Text.is_upper c || Text.is_digit c || is_underscore_or_hyphen c.

(** [db.add(db_product); db.commit(); db.refresh(db_product)] for a product
    built from the payload, the SKU settled and the owner; [is_active] takes
    its column default. *)
Definition insert_product (product : ProductCreate) (sku : string) (owner_id : Z)
    : service Product.t :=
  fun db =>
    let db_product :=
      Product.Build (next_id (map Product.id (products db))) (pc_name product)
        (pc_description product) (pc_price product) (pc_stock_quantity product)
        (pc_category product) sku (Some true) owner_id in
    bind (commit (with_products db (products db ++ [db_product]))) (fun _ => ret db_product) db.

(** [create_product]. The SKU is generated from the name when the payload has
    none (or an empty one); the result is [None] when the generator's random
    loop is not over within [fuel] draws. *)
Definition create_product (uuid4 : nat -> string) (fuel : nat) (product : ProductCreate)
    (owner_id : Z) (db : Db) : option (outcome Product.t * Db) :=
  if negb (given (pc_sku product)) then
    match generate_unique_sku db (Some (pc_name product)) uuid4 fuel with
    | Some sku => Some (insert_product product sku owner_id db)
    | None => None
    end
  else
    match pc_sku product with
    | Some sku =>
        match get_product_by_sku db sku with
        | Some _ => Some (HTTPException 400 "SKU already exists", db)
        | None => Some (insert_product product sku owner_id db)
        end
    | None => None
    end.


(* ================================================================== *)
(** ** The other read endpoints ([app/api/products.py], [app/api/users.py]) *)
(* ================================================================== *)

(** [GET /products/my-products]; the count, again, runs with the default
    limit of [get_products_by_owner]. *)
Definition read_my_products (db : Db) (skip limit : Z) (user : User.t)
    : outcome PaginatedResponse :=
  match get_current_active_user user with
  | Ok current_user =>
      let products := get_products_by_owner db (User.id current_user) skip limit in
      let total_products :=
        Z.of_nat (List.length (get_products_by_owner db (User.id current_user)
                                 default_skip default_limit)) in
      let pages := (total_products + limit - 1) / limit in
      let page := (skip / limit) + 1 in
      Ok (MkPage products total_products page limit pages)
  | HTTPException status_code detail => HTTPException status_code detail
  | IntegrityError => IntegrityError
  end.

(** [GET /products/{product_id}]. *)
Definition read_product (db : Db) (product_id : Z) (user : User.t) : outcome Product.t :=
  match get_current_active_user user with
  | Ok current_user =>
      match get_product db product_id with
      | None => HTTPException 404 "Product not found"
      | Some product => Ok product
      end
  | HTTPException status_code detail => HTTPException status_code detail
  | IntegrityError => IntegrityError
  end.

(** [GET /users] and [GET /users/{user_id}]. *)
Definition read_users (db : Db) (skip limit : Z) (user : User.t) : outcome (list User.t) :=
  match get_current_superuser user with
  | Ok current_user => Ok (get_users db skip limit)
  | HTTPException status_code detail => HTTPException status_code detail
  | IntegrityError => IntegrityError
  end.

Definition read_user (db : Db) (user_id : Z) (user : User.t) : outcome User.t :=
  match get_current_superuser user with
  | Ok current_user =>
      match get_user db user_id with
      | None => HTTPException 404 "User not found"
      | Some found => Ok found
      end
  | HTTPException status_code detail => HTTPException status_code detail
  | IntegrityError => IntegrityError
  end.

(** [SELECT DISTINCT]: one row per value. SQL leaves the order of the rows
    open; the model keeps each value where it first occurs. *)
Fixpoint sql_distinct (values : list string) : list string :=
  match values with
  | [] => []
  | v :: rest => v :: filter (fun w => negb (String.eqb w v)) (sql_distinct rest)
  end.

Fixpoint not_null {A} (column : list (option A)) : list A :=
  match column with
  | [] => []
  | Some v :: rest => v :: not_null rest
  | None :: rest => not_null rest
  end.

(** [GET /products/categories/list]: the distinct categories that are not
    NULL, less the empty string, which the list comprehension drops. *)
Definition get_categories (db : Db) (user : User.t) : outcome (list string) :=
  match get_current_active_user user with
  | Ok current_user =>
      let categories := sql_distinct (not_null (map Product.category (products db))) in
      Ok (filter Text.truthy categories)
  | HTTPException status_code detail => HTTPException status_code detail
  | IntegrityError => IntegrityError
  end.

(** The counts of [get_product_statistics]. Its fourth entry, [total_value],
    is a floating-point sum and is not part of the model. [if owner_id:] is
    false for [None] and for 0. *)
Record ProductStatistics : Type := MkStatistics {
  total_products : Z;
  active_products : Z;
  inactive_products : Z
}.

Definition owner_given (owner_id : option Z) : bool :=
  match owner_id with
  | Some n => negb (n =? 0)
  | None => false
  end.

Definition statistics_rows (db : Db) (owner_id : option Z) : list Product.t :=
  if owner_given owner_id
  then match owner_id with
       | Some n => filter (fun p => Product.owner_id p =? n) (products db)
       | None => products db
       end
  else products db.

Definition get_product_statistics (db : Db) (owner_id : option Z) : ProductStatistics :=
  let rows := statistics_rows db owner_id in
  let total := Z.of_nat (List.length rows) in
  let active := Z.of_nat (List.length (filter (fun p => is_true (Product.is_active p)) rows)) in
  MkStatistics total active (total - active).

Definition get_overview_statistics (db : Db) (user : User.t) : outcome ProductStatistics :=
  match get_current_active_user user with
  | Ok current_user => Ok (get_product_statistics db (Some (User.id current_user)))
  | HTTPException status_code detail => HTTPException status_code detail
  | IntegrityError => IntegrityError
  end.

Definition get_admin_statistics (db : Db) (user : User.t) : outcome ProductStatistics :=
  match get_current_superuser user with
  | Ok current_user => Ok (get_product_statistics db None)
  | HTTPException status_code detail => HTTPException status_code detail
  | IntegrityError => IntegrityError
  end.

(* ================================================================== *)
(** ** Login ([app/api/auth.py]) *)
(* ================================================================== *)

Record Token : Type := MkToken {
  access_token : string;
  token_type : string
}.

Section Login.

(** [authenticate_user] and [create_access_token] live in [app/auth.py],
    which is not among the sources, and the token lifetime is a setting read
    from the environment: the two endpoints take them as parameters.
    [create_access_token subject minutes] is the token issued for the subject
    at the time of the call. *)
Variable authenticate_user : Db -> string -> string -> option User.t.
Variable create_access_token : string -> Z -> string.
Variable access_token_expire_minutes : Z.

(** [bool(v)] of a nullable Boolean. *)
Definition py_bool (v : option bool) : bool := is_true v.

(** [v is False]. *)
Definition is_False (v : option bool) : bool :=
  match v with Some false => true | _ => false end.

(** [POST /auth/login]. *)
Definition login (username password : string) (db : Db) : outcome Token :=
  let user := authenticate_user db username password in
  let user :=
    match user with
    | Some u => Some u
    | None =>
        match get_user_by_email db username with
        | Some user_by_email => authenticate_user db (User.username user_by_email) password
        | None => None
        end
    end in
  match user with
  | None => HTTPException 401 "Incorrect username/email or password"
  | Some user =>
      if negb (py_bool (User.is_active user))
      then HTTPException 400 "Inactive user"
      else Ok (MkToken (create_access_token (User.username user) access_token_expire_minutes)
                 "bearer")
  end.

(** [POST /auth/login-alt]. *)
Definition login_alt (username password : string) (db : Db) : outcome Token :=
  let user := authenticate_user db username password in
  let user :=
    match user with
    | Some u => Some u
    | None =>
        match get_user_by_email db username with
        | Some user_by_email => authenticate_user db (User.username user_by_email) password
        | None => None
        end
    end in
  match user with
  | None => HTTPException 401 "Incorrect username/email or password"
  | Some user =>
      if is_False (User.is_active user)
      then HTTPException 400 "Inactive user"
      else Ok (MkToken (create_access_token (User.username user) access_token_expire_minutes)
                 "bearer")
  end.

End Login.

(* ================================================================== *)
(** ** What a user update may change *)
(* ================================================================== *)

Definition user_identity_kept (before after : User.t) : Prop :=
  User.id after = User.id before
  /\ User.hashed_password after = User.hashed_password before
  /\ User.is_superuser after = User.is_superuser before.

Definition user_unset_fields_kept (u : UserUpdate) (before after : User.t) : Prop :=
  (uu_email u = None -> User.email after = User.email before)
  /\ (uu_username u = None -> User.username after = User.username before)
  /\ (uu_full_name u = None -> User.full_name after = User.full_name before)
  /\ (uu_is_active u = None -> User.is_active after = User.is_active before).

Definition user_set_fields_applied (u : UserUpdate) (after : User.t) : Prop :=
  (forall v, uu_email u = Some v -> v = Some (User.email after))
  /\ (forall v, uu_username u = Some v -> v = Some (User.username after))
  /\ (forall v, uu_full_name u = Some v -> v = User.full_name after)
  /\ (forall v, uu_is_active u = Some v -> v = User.is_active after).

(** A value that an update sets is usable when it is not [null] and no other
    user holds it. *)
Definition settable (lookup : Db -> string -> option User.t) (db : Db) (user_id : Z)
    (field : option (option string)) : Prop :=
  match field with
  | None => True
  | Some None => False
  | Some (Some v) =>
      match lookup db v with
      | Some holder => User.id holder = user_id
      | None => True
      end
  end.

(** The rows after an UPDATE by key: [replace_user] and [replace_product]
    are its instances for the two tables. *)
Definition replaced {A} (key : A -> Z) (row : A) (rows : list A) : list A :=
  map (fun q => if key q =? key row then row else q) rows.


(** The characters of the text of a UUID: lower-case hexadecimal digits and
    hyphens. *)
Definition is_hex_or_hyphen (c : ascii) : bool :=
  Text.is_digit c || ((97 <=? Text.code c) && (Text.code c <=? 102))%N || (c =? "-")%char.

(** The characters that [validate_sku] lets through. *)
Definition sku_input_char (c : ascii) : bool := Text.is_alnum c || is_underscore_or_hyphen c.

(** Sample parameters for the login endpoints: a user whose active flag is
    NULL, a credential check that knows one password, and a token text. *)
Definition dormant : User.t :=
  User.Build 4 "dormant@example.com" "dormant" "<hash>" None None (Some false).

Definition login_db : Db := MkDb [admin; testuser; otheruser; dormant] [].

Definition sample_authenticate (db : Db) (username password : string) : option User.t :=
  match get_user_by_username db username with
  | Some u => if String.eqb password "UserPass123" then Some u else None
  | None => None
  end.

Definition sample_token (subject : string) (minutes : Z) : string := "token-for-" ++ subject.

(** The answer of a successful login for account [u]. *)
Definition issued (create_access_token : string -> Z -> string) (minutes : Z) (u : User.t)
    : outcome Token :=
  Ok (MkToken (create_access_token (User.username u) minutes) "bearer").

(** The account that the credentials verify for: by user name first, then by
    the user name of the account that holds the identifier as its email. *)
Definition verified (authenticate_user : Db -> string -> string -> option User.t) (db : Db)
    (username password : string) (u : User.t) : Prop :=
  authenticate_user db username password = Some u
  \/ (authenticate_user db username password = None
      /\ exists by_email,
           get_user_by_email db username = Some by_email
           /\ authenticate_user db (User.username by_email) password = Some u).

(* ================================================================== *)
(** * Properties *)
(* ================================================================== *)

Unset Implicit Arguments.

(** ** Characters and text *)

Ltac by_cases_on_char c := destruct c as [[] [] [] [] [] [] [] []]; reflexivity.


Lemma to_upper_idempotent (c : ascii) : Text.to_upper (Text.to_upper c) = Text.to_upper c.
Proof. by_cases_on_char c. Qed.



Lemma to_upper_digit (c : ascii) : Text.is_digit c = true -> Text.to_upper c = c.
Proof. destruct c as [[] [] [] [] [] [] [] []]; intros H; try reflexivity; discriminate H. Qed.

Lemma smap_app (f : ascii -> ascii) (s t : string) :
  Text.smap f (s ++ t) = Text.smap f s ++ Text.smap f t.
Proof. induction s as [|c s IH]; simpl; [reflexivity | now rewrite IH]. Qed.

Lemma smap_idempotent (f : ascii -> ascii) (s : string) :
  (forall c, f (f c) = f c) -> Text.smap f (Text.smap f s) = Text.smap f s.
Proof. intros Hf. induction s as [|c s IH]; simpl; [reflexivity | now rewrite Hf, IH]. Qed.


Lemma smap_take (f : ascii -> ascii) (n : nat) (s : string) :
  Text.smap f (Text.take n s) = Text.take n (Text.smap f s).
Proof.
  revert s. induction n as [|n IH]; intros [|c s]; simpl; try reflexivity.
  now rewrite IH.
Qed.

Lemma smap_fixed (f : ascii -> ascii) (ok : ascii -> bool) (s : string) :
  (forall c, ok c = true -> f c = c) -> Text.sforall ok s = true -> Text.smap f s = s.
Proof.
  intros Hf. induction s as [|c s IH]; simpl; [reflexivity|].
  intros H. apply andb_true_iff in H as [Hc Hs]. now rewrite (Hf c Hc), IH.
Qed.



Lemma upper_idempotent (s : string) : Text.upper (Text.upper s) = Text.upper s.
Proof. apply smap_idempotent, to_upper_idempotent. Qed.


(** ** LIKE with a wildcard-free needle is the substring test *)









(** [containsb] is the substring relation. *)
Lemma prefixb_spec (s t : string) : Text.prefixb s t = true <-> exists v, t = s ++ v.
Proof.
  revert t. induction s as [|a s IH]; intros t; simpl.
  - split; [intros _; now exists t | reflexivity].
  - destruct t as [|b t].
    + split; [discriminate | intros [v Hv]; discriminate Hv].
    + rewrite andb_true_iff, Ascii.eqb_eq, IH. split.
      * intros [-> [v ->]]. now exists v.
      * intros [v Hv]. injection Hv as -> ->. split; [reflexivity | now exists v].
Qed.

Lemma containsb_spec (s t : string) :
  Text.containsb s t = true <-> exists u v, t = u ++ s ++ v.
Proof.
  induction t as [|b t IH].
  - simpl. rewrite orb_false_r, prefixb_spec. split.
    + intros [v Hv]. now exists EmptyString, v.
    + intros [u [v Hv]]. destruct u; [now exists v | discriminate Hv].
  - cbn [Text.containsb]. rewrite orb_true_iff, IH, prefixb_spec. split.
    + intros [[v Hv] | [u [v Hv]]].
      * now exists EmptyString, v.
      * exists (String b u), v. simpl. now rewrite Hv.
    + intros [u [v Hv]]. destruct u as [|c u].
      * left. now exists v.
      * right. injection Hv as _ Hv. now exists u, v.
Qed.

(** ** The tokens of a query *)










(** ** Token search *)

Lemma sql_limit_nil {A} (n : Z) : sql_limit n (@nil A) = [].
Proof. unfold sql_limit. destruct (n <? 0); [reflexivity | apply firstn_nil]. Qed.

Lemma filter_none {A} (f : A -> bool) (l : list A) :
  (forall x, f x = false) -> filter f l = [].
Proof. intros Hf. induction l as [|x l IH]; simpl; [reflexivity | now rewrite Hf]. Qed.

Lemma existsb_over_map {A B} (g : B -> bool) (f : A -> B) (rows : list A) :
  existsb g (map f rows) = existsb (fun a => g (f a)) rows.
Proof. induction rows as [|a rows IH]; simpl; [reflexivity | now rewrite IH]. Qed.

(** What [full_text_search] computes, whatever the tokens are: the first
    [limit] active rows that satisfy the condition of some kept token. *)
Lemma full_text_search_conditions (db : Db) (query : string) (limit : Z) :
  full_text_search db query limit
  = sql_limit limit
      (filter (fun p => existsb (fun token => token_condition token p) (kept_tokens query)
                        && is_true (Product.is_active p))
         (products db)).
Proof.
  assert (Hnone : kept_tokens query = [] ->
            [] = sql_limit limit
                   (filter (fun p => existsb (fun token => token_condition token p)
                                       (kept_tokens query)
                                     && is_true (Product.is_active p)) (products db))).
  { intros ->. simpl. now rewrite filter_none, sql_limit_nil. }
  unfold full_text_search. destruct (Text.truthy query) eqn:Hq; simpl.
  - destruct (query_tokens query) as [|t ts] eqn:Ht.
    + apply Hnone. unfold kept_tokens. now rewrite Ht.
    + destruct (kept_tokens query) as [|k ks] eqn:Hk.
      * simpl. now apply Hnone.
      * cbn [map]. f_equal. apply filter_ext. intros p.
        change (token_condition k :: map token_condition ks) with (map token_condition (k :: ks)).
        now rewrite existsb_over_map.
  - destruct query; [|discriminate]. now apply Hnone.
Qed.


Lemma existsb_ext_in {A} (f g : A -> bool) (l : list A) :
  (forall x, In x l -> f x = g x) -> existsb f l = existsb g l.
Proof.
  induction l as [|x l IH]; intros H; simpl; [reflexivity|].
  rewrite (H x (or_introl eq_refl)), IH; [reflexivity|].
  intros y Hy. apply H. now right.
Qed.


Example search_gaming_headphone :
  full_text_search sample_db "gaming headphone" 100 = [laptop; headphones].
Proof. reflexivity. Qed.

Example search_mixed_case_and_blanks :
  full_text_search sample_db "  COFFEE   x " 100 = [coffee].
Proof. reflexivity. Qed.

Example search_empty_query : full_text_search sample_db "" 100 = [].
Proof. reflexivity. Qed.

Example search_short_tokens : full_text_search sample_db "a b c" 100 = [].
Proof. reflexivity. Qed.




(** ** Product listing and pagination *)

Lemma ceil_div_formula (a b : Z) : 0 < b -> (a + b - 1) / b = ceil_div a b.
Proof.
  intros Hb. unfold ceil_div.
  pose proof (Z.div_mod a b ltac:(lia)) as Hdm.
  pose proof (Z.mod_pos_bound a b Hb) as Hm.
  destruct (a mod b =? 0) eqn:E.
  - apply Z.eqb_eq in E. symmetry. apply Z.div_unique with (r := b - 1); lia.
  - apply Z.eqb_neq in E. symmetry. apply Z.div_unique with (r := a mod b - 1); lia.
Qed.

(** [ceil_div a b] is the least [n] with [a <= n * b]. *)
Lemma ceil_div_least (a b : Z) :
  0 < b -> a <= ceil_div a b * b /\ (forall n, a <= n * b -> ceil_div a b <= n).
Proof.
  intros Hb. unfold ceil_div.
  pose proof (Z.div_mod a b ltac:(lia)) as Hdm.
  pose proof (Z.mod_pos_bound a b Hb) as Hm.
  destruct (a mod b =? 0) eqn:E.
  - apply Z.eqb_eq in E. split; [nia|]. intros n Hn. nia.
  - apply Z.eqb_neq in E. split; [nia|]. intros n Hn. nia.
Qed.

Lemma default_count (db : Db) (category search : option string)
    (min_price max_price : option Q) (active_only : bool) :
  Z.of_nat (List.length (get_products db default_skip default_limit category search
                           min_price max_price active_only))
  = Z.min default_limit (matching_count db category search min_price max_price active_only).
Proof.
  unfold get_products, matching_count, sql_limit, sql_offset, default_skip, default_limit.
  change (100 <? 0) with false. cbv iota.
  rewrite length_firstn, Nat2Z.inj_min, Z2Nat.id by lia. reflexivity.
Qed.

(** The part of the pagination contract that the listing keeps: [page] and
    [pages] are computed as specified from the [total] it reports, and that
    [total] is the number of matching records as long as they are at most
    100, the default limit of the counting query. *)
Lemma read_products_pagination (db : Db) (skip limit : Z) (category search : option string)
    (min_price max_price : option Q) (active_only : bool) :
  0 <= skip -> 1 <= limit <= 1000 ->
  let r := read_products db skip limit category search min_price max_price active_only in
  page r = skip / limit + 1
  /\ pages r = ceil_div (total r) limit
  /\ size r = limit
  /\ items r = get_products db skip limit category search min_price max_price active_only
  /\ total r = Z.min 100 (matching_count db category search min_price max_price active_only).
Proof.
  intros Hskip Hlimit. cbn [read_products page pages size items total].
  repeat split.
  - apply ceil_div_formula. lia.
  - apply default_count.
Qed.

Lemma read_products_total_small (db : Db) (skip limit : Z) (category search : option string)
    (min_price max_price : option Q) (active_only : bool) :
  matching_count db category search min_price max_price active_only <= 100 ->
  total (read_products db skip limit category search min_price max_price active_only)
  = matching_count db category search min_price max_price active_only.
Proof. intros H. cbn [read_products total]. rewrite default_count. unfold default_limit. lia. Qed.

Example pagination_25_records :
  let r := read_products (store_of 25) 20 10 None None None None true in
  total r = 25 /\ pages r = 3 /\ page r = 3 /\ List.length (items r) = 5%nat.
Proof. vm_compute. repeat split; reflexivity. Qed.

Example pagination_no_record :
  let r := read_products (store_of 0) 0 10 None None None None true in
  total r = 0 /\ pages r = 0 /\ page r = 1.
Proof. vm_compute. repeat split; reflexivity. Qed.

(** C1 at a store of 101 active products, listed with [skip = 0] and
    [limit = 10]: 101 records match, so the specified response has
    [total = 101] and [pages = 11]; the response of [read_products] has
    [total = 100] and [pages = 10], because the query that counts the matches
    runs with the default limit of 100. *)
Theorem read_products_total_capped :
  let r := read_products (store_of 101) 0 10 None None None None true in
  matching_count (store_of 101) None None None None true = 101
  /\ ceil_div 101 10 = 11
  /\ total r = 100
  /\ pages r = 10
  /\ page r = 1.
Proof. vm_compute. repeat split; reflexivity. Qed.

(** An empty string is a filter that was not given. *)
Lemma empty_category_filter (search : option string) (min_price max_price : option Q)
    (active_only : bool) (p : Product.t) :
  products_filter (Some "") search min_price max_price active_only p
  = products_filter None search min_price max_price active_only p.
Proof. unfold products_filter. now replace (given (Some "")) with (given None). Qed.

Lemma empty_search_filter (category : option string) (min_price max_price : option Q)
    (active_only : bool) (p : Product.t) :
  products_filter category (Some "") min_price max_price active_only p
  = products_filter category None min_price max_price active_only p.
Proof. unfold products_filter. now replace (given (Some "")) with (given None). Qed.

(** C10. An empty [category] (or an empty [search]) is the same request as one
    without that filter: every product passes the same test, and
    [get_products] and the listing endpoint return the same result. So
    [category=""] selects the products that no category filter would select,
    not those whose category is the empty string. *)
Theorem empty_filter_is_no_filter (db : Db) (skip limit : Z) (category search : option string)
    (min_price max_price : option Q) (active_only : bool) :
  (forall p, products_filter (Some "") search min_price max_price active_only p
             = products_filter None search min_price max_price active_only p)
  /\ get_products db skip limit (Some "") search min_price max_price active_only
     = get_products db skip limit None search min_price max_price active_only
  /\ get_products db skip limit category (Some "") min_price max_price active_only
     = get_products db skip limit category None min_price max_price active_only
  /\ read_products db skip limit (Some "") search min_price max_price active_only
     = read_products db skip limit None search min_price max_price active_only
  /\ read_products db skip limit category (Some "") min_price max_price active_only
     = read_products db skip limit category None min_price max_price active_only.
Proof.
  assert (Hc : forall s l,
            get_products db s l (Some "") search min_price max_price active_only
            = get_products db s l None search min_price max_price active_only).
  { intros s l. unfold get_products.
    now rewrite (filter_ext _ _ (empty_category_filter search min_price max_price active_only)). }
  assert (Hs : forall s l,
            get_products db s l category (Some "") min_price max_price active_only
            = get_products db s l category None min_price max_price active_only).
  { intros s l. unfold get_products.
    now rewrite (filter_ext _ _ (empty_search_filter category min_price max_price active_only)). }
  split; [intros p; apply empty_category_filter|].
  split; [apply Hc|]. split; [apply Hs|].
  unfold read_products. split.
  - now rewrite !Hc.
  - now rewrite !Hs.
Qed.

Example empty_category_keeps_categorised_products :
  get_products sample_db 0 100 (Some "") None None None true = [laptop; headphones; coffee]
  /\ get_products sample_db 0 100 (Some "Electronics") None None None true = [laptop; headphones].
Proof. split; reflexivity. Qed.

(** ** Lists, keys and the store's constraints *)

Ltac run_service := unfold bind, query, ret, raise, commit, flush_rejected, depends.

Lemma find_none_existsb {A} (f : A -> bool) (l : list A) :
  find f l = None <-> existsb f l = false.
Proof.
  induction l as [|x l IH]; simpl; [tauto|].
  destruct (f x); simpl; [split; discriminate | exact IH].
Qed.

Lemma distinct_by_app_one {A} (eqb : A -> A -> bool) (l : list A) (x : A) :
  distinct_by eqb (l ++ [x]) = distinct_by eqb l && negb (existsb (fun y => eqb y x) l).
Proof.
  induction l as [|y l IH]; simpl; [reflexivity|].
  rewrite IH, existsb_app. simpl. rewrite orb_false_r, !negb_orb.
  destruct (eqb y x), (existsb (eqb y) l), (distinct_by eqb l); reflexivity.
Qed.

Lemma existsb_filter_le {A} (f keep : A -> bool) (l : list A) :
  existsb f l = false -> existsb f (filter keep l) = false.
Proof.
  induction l as [|x l IH]; simpl; [reflexivity|].
  intros H. apply orb_false_iff in H as [Hx Hl].
  destruct (keep x); simpl; [rewrite Hx|]; now apply IH.
Qed.

Lemma distinct_by_filter {A B} (eqb : B -> B -> bool) (g : A -> B) (keep : A -> bool)
    (l : list A) :
  distinct_by eqb (map g l) = true -> distinct_by eqb (map g (filter keep l)) = true.
Proof.
  induction l as [|x l IH]; simpl; [reflexivity|].
  intros H. apply andb_true_iff in H as [Hx Hl].
  destruct (keep x); simpl; [|now apply IH].
  rewrite (IH Hl), andb_true_r. apply negb_true_iff. apply negb_true_iff in Hx.
  rewrite existsb_over_map in Hx |- *. now apply existsb_filter_le.
Qed.

Lemma fold_max_bound (ids : list Z) (x : Z) : In x ids -> x <= fold_right Z.max 0 ids.
Proof.
  induction ids as [|y ids IH]; simpl; [tauto|].
  intros [-> | H]; [lia | specialize (IH H); lia].
Qed.

Lemma next_id_fresh (ids : list Z) : existsb (fun y => y =? next_id ids) ids = false.
Proof.
  destruct (existsb (fun y => y =? next_id ids) ids) eqn:E; [|reflexivity].
  apply existsb_exists in E as [y [Hin Hy]]. apply Z.eqb_eq in Hy.
  pose proof (fold_max_bound ids y Hin). unfold next_id in Hy. lia.
Qed.

(** *** Rows looked up by an integer key *)

Section KeyedRows.

Context {A : Type} (key : A -> Z).

Lemma find_id_some (k : Z) (l : list A) (x : A) :
  find (fun y => key y =? k) l = Some x -> In x l /\ key x = k.
Proof. intros H. apply find_some in H as [Hin Hk]. split; [exact Hin | now apply Z.eqb_eq]. Qed.

(** With distinct keys, the row that a look-up by key finds is the only row
    with that key. *)
Lemma distinct_key_unique (l : list A) (k : Z) (x y : A) :
  distinct_by Z.eqb (map key l) = true ->
  find (fun z => key z =? k) l = Some x -> In y l -> key y = k -> y = x.
Proof.
  induction l as [|z l IH]; simpl; [discriminate|].
  intros Hd Hf Hy Hk. apply andb_true_iff in Hd as [Hz Hd].
  apply negb_true_iff in Hz. rewrite existsb_over_map in Hz.
  destruct (key z =? k) eqn:Ez.
  - injection Hf as <-. destruct Hy as [-> | Hy]; [reflexivity|]. exfalso.
    assert (existsb (fun w => key z =? key w) l = true); [|congruence].
    apply existsb_exists. exists y. split; [exact Hy|]. apply Z.eqb_eq in Ez. lia.
  - destruct Hy as [-> | Hy]; [apply Z.eqb_neq in Ez; contradiction|].
    now apply IH.
Qed.

(** Looking up a key after the rows with key [k] were removed. *)
Lemma find_after_delete (k k' : Z) (l : list A) :
  find (fun x => key x =? k') (filter (fun x => negb (key x =? k)) l)
  = if k' =? k then None else find (fun x => key x =? k') l.
Proof.
  induction l as [|x l IH]; simpl; [now destruct (k' =? k)|].
  destruct (key x =? k) eqn:Ek; simpl.
  - rewrite IH. destruct (k' =? k) eqn:E; [reflexivity|].
    destruct (key x =? k') eqn:Ek'; [|reflexivity]. lia.
  - destruct (key x =? k') eqn:Ek'; [|exact IH].
    destruct (k' =? k) eqn:E; [lia | reflexivity].
Qed.

End KeyedRows.

(** ** Registration *)

Lemma create_user_fresh (get_password_hash : string -> string) (user : UserCreate) (db : Db) :
  db_ok db = true ->
  get_user_by_email db (uc_email user) = None ->
  get_user_by_username db (uc_username user) = None ->
  let db_user :=
    User.Build (next_id (map User.id (users db))) (uc_email user) (uc_username user)
      (get_password_hash (uc_password user)) (uc_full_name user) (Some true) (Some false) in
  create_user get_password_hash user db = (Ok db_user, with_users db (users db ++ [db_user])).
Proof.
  intros Hok He Hu db_user. unfold create_user. run_service. rewrite He, Hu. fold db_user.
  assert (Hok' : db_ok (with_users db (users db ++ [db_user])) = true).
  { unfold db_ok in *. cbn [with_users users products].
    repeat (apply andb_true_iff in Hok as [Hok ?]).
    rewrite !map_app. cbn [map]. rewrite !distinct_by_app_one, !existsb_over_map.
    repeat (apply andb_true_iff; split); try assumption; apply negb_true_iff.
    - rewrite <- existsb_over_map with (g := fun y => y =? User.id db_user).
      apply next_id_fresh.
    - now apply find_none_existsb in He.
    - now apply find_none_existsb in Hu. }
  now rewrite Hok'.
Qed.

(** C6. A registration whose email is already stored fails with status 400,
    "Email already registered", whether or not the username is stored too;
    one whose email is free and whose username is stored fails with status
    400, "Username already taken". Both leave the store as it was: no user
    row is added. *)
Theorem register_rejects_duplicates (get_password_hash : string -> string)
    (user : UserCreate) (db : Db) :
  (get_user_by_email db (uc_email user) <> None ->
   register get_password_hash user db = (HTTPException 400 "Email already registered", db))
  /\ (get_user_by_email db (uc_email user) = None ->
      get_user_by_username db (uc_username user) <> None ->
      register get_password_hash user db = (HTTPException 400 "Username already taken", db)).
Proof.
  unfold register, create_user. run_service. split.
  - intros He. destruct (get_user_by_email db (uc_email user)); [reflexivity | contradiction].
  - intros He Hu. rewrite He.
    destruct (get_user_by_username db (uc_username user)); [reflexivity | contradiction].
Qed.

Lemma register_rejects_duplicates_witness :
  register (fun _ => "<hash>") (MkUserCreate "user@example.com" "admin" None "SecurePass123")
    sample_db
  = (HTTPException 400 "Email already registered", sample_db)
  /\ register (fun _ => "<hash>") (MkUserCreate "new@example.com" "admin" None "SecurePass123")
       sample_db
     = (HTTPException 400 "Username already taken", sample_db).
Proof.
  split.
  - apply (proj1 (register_rejects_duplicates (fun _ => "<hash>")
                    (MkUserCreate "user@example.com" "admin" None "SecurePass123") sample_db)).
    vm_compute. discriminate.
  - apply (proj2 (register_rejects_duplicates (fun _ => "<hash>")
                    (MkUserCreate "new@example.com" "admin" None "SecurePass123") sample_db)).
    + reflexivity.
    + vm_compute. discriminate.
Defined.

Example register_fresh_user :
  exists u db',
    register (fun _ => "<hash>") (MkUserCreate "new@example.com" "newuser" None "SecurePass123")
      sample_db = (Ok u, db')
    /\ User.id u = 4 /\ users db' = (users sample_db ++ [u])%list.
Proof. eexists. eexists. vm_compute. repeat split. Qed.

(** ** Field updates *)

Lemma setattr_all_none {R I} (setattr : R -> I -> option R) (d : list I) :
  fold_left (fun acc item => match acc with Some r => setattr r item | None => None end) d None
  = None.
Proof. induction d as [|item d IH]; simpl; [reflexivity | exact IH]. Qed.

(** A projection of the row that no assignment of the dictionary changes is
    not changed by the loop. *)
Lemma setattr_all_preserves {R I X} (setattr : R -> I -> option R) (proj : R -> X)
    (d : list I) (row r : R) :
  (forall item, In item d -> forall a b, setattr a item = Some b -> proj b = proj a) ->
  setattr_all setattr row d = Some r -> proj r = proj row.
Proof.
  unfold setattr_all. revert row. induction d as [|item d IH]; intros row Hstep H.
  - simpl in H. now injection H as <-.
  - simpl in H. destruct (setattr row item) as [row'|] eqn:E.
    + rewrite (IH row'); [now apply (Hstep item (or_introl eq_refl)) | | exact H].
      intros item' Hin. apply Hstep. now right.
    + now rewrite setattr_all_none in H.
Qed.

Lemma user_setattr_keeps (item : user_item) (a b : User.t) :
  user_setattr a item = Some b ->
  (User.id b, User.is_superuser b) = (User.id a, User.is_superuser a).
Proof. destruct item as [[v|] | [v|] | v | v]; simpl; intros H; now inversion H. Qed.

Lemma replace_user_ids (row : User.t) (rows : list User.t) :
  map User.id (replace_user row rows) = map User.id rows.
Proof.
  unfold replace_user. rewrite map_map. apply map_ext. intros u.
  destruct (User.id u =? User.id row) eqn:E; [|reflexivity].
  apply Z.eqb_eq in E. now rewrite E.
Qed.

(** ** The superuser flag *)

Lemma update_user_keeps_flags (user_id : Z) (user_update : UserUpdate) (db : Db) :
  superuser_flags (snd (update_user user_id user_update db)) = superuser_flags db.
Proof.
  unfold update_user. run_service.
  destruct (get_user db user_id) as [db_user|] eqn:Hfound; [|reflexivity].
  destruct (match dict_email _ with Some _ => _ | None => _ end); [reflexivity|].
  destruct (match dict_username _ with Some _ => _ | None => _ end); [reflexivity|].
  destruct (setattr_all user_setattr db_user (UserUpdate_dict user_update)) as [row|] eqn:Hrow;
    [|reflexivity].
  destruct (db_ok (with_users db (replace_user row (users db)))) eqn:Hok; [|reflexivity].
  cbn [snd]. unfold superuser_flags. cbn [with_users users].
  apply (setattr_all_preserves user_setattr
           (fun u => (User.id u, User.is_superuser u))) in Hrow;
    [|intros item _ a b; apply user_setattr_keeps].
  injection Hrow as Hid Hsu.
  unfold db_ok in Hok. cbn [with_users users] in Hok.
  repeat (apply andb_true_iff in Hok as [Hok _]). rewrite replace_user_ids in Hok.
  unfold replace_user. rewrite map_map. apply map_ext_in. intros u Hin.
  destruct (User.id u =? User.id row) eqn:E; [|reflexivity].
  apply Z.eqb_eq in E. unfold get_user in Hfound.
  destruct (find_id_some _ _ _ _ Hfound) as [_ Hkey].
  assert (u = db_user) as ->.
  { apply distinct_key_unique with (key := User.id) (l := users db) (k := user_id);
      try assumption. lia. }
  now rewrite Hid, Hsu.
Qed.

(** C9. A successful registration stores a user whose superuser flag is
    false and leaves the flags of the stored users as they were; a rejected
    one leaves the store as it was. A user update, through the service or
    through its endpoint and whatever its outcome, leaves the superuser flag
    of every stored user as it was: [UserUpdate] has no field for it. *)
Theorem superuser_flag_invariant (get_password_hash : string -> string) (user : UserCreate)
    (user_id : Z) (user_update : UserUpdate) (acting : User.t) (db : Db) :
  match register get_password_hash user db with
  | (Ok u, db') =>
      User.is_superuser u = Some false
      /\ superuser_flags db' = (superuser_flags db ++ [(User.id u, Some false)])%list
  | (_, db') => db' = db
  end
  /\ superuser_flags (snd (update_user user_id user_update db)) = superuser_flags db
  /\ superuser_flags (snd (update_existing_user user_id user_update acting db))
     = superuser_flags db.
Proof.
  split; [|split].
  - unfold register, create_user. run_service.
    destruct (get_user_by_email db (uc_email user)); [reflexivity|].
    destruct (get_user_by_username db (uc_username user)); [reflexivity|].
    destruct (db_ok _); [|reflexivity].
    split; [reflexivity|]. unfold superuser_flags. cbn [with_users users].
    now rewrite map_app.
  - apply update_user_keeps_flags.
  - unfold update_existing_user, depends.
    destruct (get_current_superuser acting); try reflexivity.
    apply update_user_keeps_flags.
Qed.

Example update_user_cannot_promote :
  superuser_flags
    (snd (update_existing_user 2 (MkUserUpdate (Some (Some "x@example.com")) None
                                    (Some None) (Some (Some false))) admin sample_db))
  = [(1, Some true); (2, Some false); (3, Some false)].
Proof. reflexivity. Qed.

(** ** Deleting rows *)


Lemma forallb_filter {A} (f keep : A -> bool) (l : list A) :
  forallb f l = true -> forallb f (filter keep l) = true.
Proof.
  induction l as [|x l IH]; simpl; [reflexivity|].
  intros H. apply andb_true_iff in H as [Hx Hl].
  destruct (keep x); simpl; [rewrite Hx|]; now apply IH.
Qed.

Lemma db_ok_filter_products (db : Db) (keep : Product.t -> bool) :
  db_ok db = true -> db_ok (with_products db (filter keep (products db))) = true.
Proof.
  unfold db_ok. cbn [with_products users products]. intros H.
  repeat (apply andb_true_iff in H as [H ?]).
  repeat (apply andb_true_iff; split); try assumption;
    try (now apply distinct_by_filter). now apply forallb_filter.
Qed.

(** ** Deleting a user *)





(** ** Changing a product: who may *)

Lemma permission_test (user : User.t) (product : Product.t) :
  negb (Product.owner_id product =? User.id user) && negb (is_true (User.is_superuser user))
  = negb (can_modify_product user product).
Proof.
  unfold can_modify_product. rewrite negb_orb, (Z.eqb_sym (User.id user)). reflexivity.
Qed.

Lemma update_product_forbidden (product_id : Z) (upd : ProductUpdate) (user : User.t)
    (p : Product.t) (db : Db) :
  get_product db product_id = Some p ->
  can_modify_product user p = false ->
  update_product product_id upd user db
  = (HTTPException 403 "Not enough permissions to update this product", db).
Proof.
  intros Hp Hno. unfold update_product. run_service.
  now rewrite Hp, permission_test, Hno.
Qed.

Lemma delete_product_forbidden (product_id : Z) (user : User.t) (p : Product.t) (db : Db) :
  get_product db product_id = Some p ->
  can_modify_product user p = false ->
  delete_product product_id user db
  = (HTTPException 403 "Not enough permissions to delete this product", db).
Proof.
  intros Hp Hno. unfold delete_product. run_service.
  now rewrite Hp, permission_test, Hno.
Qed.

Lemma update_product_permitted (product_id : Z) (upd : ProductUpdate) (user : User.t)
    (p : Product.t) (db : Db) :
  get_product db product_id = Some p ->
  can_modify_product user p = true ->
  error_status (fst (update_product product_id upd user db)) = None
  \/ error_status (fst (update_product product_id upd user db)) = Some 500.
Proof.
  intros Hp Hyes. unfold update_product. run_service.
  rewrite Hp, permission_test, Hyes. cbn [negb].
  destruct (setattr_all product_setattr p _) as [row|]; [|now right].
  destruct (db_ok _); [now left | now right].
Qed.

Lemma delete_product_permitted (product_id : Z) (user : User.t) (p : Product.t) (db : Db) :
  db_ok db = true ->
  get_product db product_id = Some p ->
  can_modify_product user p = true ->
  delete_product product_id user db
  = (Ok true,
     with_products db (filter (fun q => negb (Product.id q =? product_id)) (products db))).
Proof.
  intros Hok Hp Hyes. unfold delete_product. run_service.
  rewrite Hp, permission_test, Hyes. cbn [negb].
  destruct (find_id_some _ _ _ _ Hp) as [_ ->].
  now rewrite db_ok_filter_products.
Qed.

(** C3. For a stored product, an update or a deletion passes the permission
    check if and only if the acting user's id is the product's [owner_id] or
    the acting user is a superuser. Otherwise the operation fails with status
    403 and the store, hence the product, is as it was. A permitted deletion
    removes the product; a permitted update is never answered 403. *)
Theorem product_change_permission (product_id : Z) (upd : ProductUpdate) (user : User.t)
    (p : Product.t) (db : Db) :
  get_product db product_id = Some p ->
  let permitted :=
    (User.id user =? Product.owner_id p) || is_true (User.is_superuser user) in
  let updated := update_product product_id upd user db in
  let deleted := delete_product product_id user db in
  (permitted = true <-> error_status (fst updated) <> Some 403)
  /\ (permitted = true <-> error_status (fst deleted) <> Some 403)
  /\ (permitted = false ->
      updated = (HTTPException 403 "Not enough permissions to update this product", db)
      /\ deleted = (HTTPException 403 "Not enough permissions to delete this product", db)
      /\ get_product (snd updated) product_id = Some p
      /\ get_product (snd deleted) product_id = Some p)
  /\ (permitted = true ->
      db_ok db = true ->
      fst deleted = Ok true /\ get_product (snd deleted) product_id = None).
Proof.
  intros Hp permitted updated deleted.
  change permitted with (can_modify_product user p) in *.
  subst updated deleted.
  destruct (can_modify_product user p) eqn:Hperm.
  - pose proof (update_product_permitted product_id upd user p db Hp Hperm) as Hu.
    split; [|split; [|split]].
    + split; [|reflexivity].
      intros _ H. destruct Hu as [Hu | Hu]; rewrite Hu in H; discriminate.
    + split; [|reflexivity]. intros _.
      unfold delete_product. run_service. rewrite Hp, permission_test, Hperm. cbn [negb].
      destruct (db_ok _); discriminate.
    + discriminate.
    + intros _ Hok.
      rewrite (delete_product_permitted product_id user p db Hok Hp Hperm).
      cbn [fst snd]. split; [reflexivity|].
      unfold get_product. cbn [with_products products].
      now rewrite find_after_delete, Z.eqb_refl.
  - rewrite (update_product_forbidden product_id upd user p db Hp Hperm).
    rewrite (delete_product_forbidden product_id user p db Hp Hperm).
    cbn [fst snd error_status].
    repeat split; try discriminate; try assumption; try reflexivity.
    + intros H. now contradiction H.
    + intros H. now contradiction H.
Qed.

Lemma product_change_permission_witness :
  let updated :=
    update_product 1 (MkProductUpdate None None (Some (Some (5 # 1))) None None None)
      otheruser sample_db in
  let deleted := delete_product 1 otheruser sample_db in
  updated = (HTTPException 403 "Not enough permissions to update this product", sample_db)
  /\ deleted = (HTTPException 403 "Not enough permissions to delete this product", sample_db)
  /\ get_product (snd updated) 1 = Some laptop
  /\ get_product (snd deleted) 1 = Some laptop.
Proof.
  apply (proj1 (proj2 (proj2
    (product_change_permission 1
       (MkProductUpdate None None (Some (Some (5 # 1))) None None None)
       otheruser laptop sample_db eq_refl)))).
  reflexivity.
Defined.

Example owner_and_superuser_may_delete :
  fst (delete_product 1 testuser sample_db) = Ok true
  /\ fst (delete_product 1 admin sample_db) = Ok true
  /\ products (snd (delete_product 1 admin sample_db)) = [headphones; coffee].
Proof. repeat split. Qed.

(** ** Updating a product: what changes *)

(** The dictionary that [update_product] applies: the payload's set fields
    without a [sku] entry. *)
Lemma update_data_has_no_sku (upd : ProductUpdate) :
  dict_has product_item_key "sku" (ProductUpdate_dict upd) = false.
Proof.
  destruct upd as [[n|] [d|] [pr|] [st|] [c|] [a|]]; reflexivity.
Qed.

(** Deleting the [sku] entry protects the SKU whatever the dictionary holds. *)
Lemma sku_survives_after_del (d : list product_item) (p row : Product.t) :
  setattr_all product_setattr p (dict_del product_item_key "sku" d) = Some row ->
  Product.sku row = Product.sku p.
Proof.
  apply setattr_all_preserves. intros item Hin a b.
  apply filter_In in Hin as [_ Hkey].
  destruct item as [[v|] | v | [v|] | [v|] | v | v | [v|]]; simpl;
    intros H; inversion H; try reflexivity; discriminate Hkey.
Qed.

Lemma updated_row (upd : ProductUpdate) (p row : Product.t) :
  setattr_all product_setattr p (ProductUpdate_dict upd) = Some row ->
  identity_kept p row /\ unset_fields_kept upd p row /\ set_fields_applied upd row.
Proof.
  unfold identity_kept, unset_fields_kept, set_fields_applied.
  destruct upd as [n d pr st c a].
  destruct n as [[n|]|], d as [d|], pr as [[pr|]|], st as [[st|]|], c as [c|], a as [a|];
    cbn; intros H; inversion H; cbn;
    repeat split; try reflexivity; try discriminate; intros v Hv; now inversion Hv.
Qed.

Lemma find_replace_same (row p : Product.t) (rows : list Product.t) :
  find (fun q => Product.id q =? Product.id row) rows = Some p ->
  find (fun q => Product.id q =? Product.id row) (replace_product row rows) = Some row.
Proof.
  unfold replace_product. induction rows as [|q rows IH]; simpl; [discriminate|].
  destruct (Product.id q =? Product.id row) eqn:E.
  - intros _. simpl. now rewrite Z.eqb_refl.
  - intros H. simpl. rewrite E. now apply IH.
Qed.

Lemma find_replace_other (row : Product.t) (other : Z) (rows : list Product.t) :
  other <> Product.id row ->
  find (fun q => Product.id q =? other) (replace_product row rows)
  = find (fun q => Product.id q =? other) rows.
Proof.
  intros Hneq. unfold replace_product. induction rows as [|q rows IH]; simpl; [reflexivity|].
  destruct (Product.id q =? Product.id row) eqn:E; simpl.
  - apply Z.eqb_eq in E. rewrite E.
    assert ((Product.id row =? other) = false) as -> by lia. exact IH.
  - destruct (Product.id q =? other); [reflexivity | exact IH].
Qed.

(** The product found under [product_id] once [update_product] has run,
    whatever its outcome. *)
Lemma update_product_effect (product_id : Z) (upd : ProductUpdate) (user : User.t)
    (p : Product.t) (db : Db) :
  get_product db product_id = Some p ->
  let result := update_product product_id upd user db in
  exists p',
    get_product (snd result) product_id = Some p'
    /\ identity_kept p p'
    /\ unset_fields_kept upd p p'
    /\ (forall other, other <> product_id ->
        get_product (snd result) other = get_product db other)
    /\ (forall row, fst result = Ok row -> row = p' /\ set_fields_applied upd p').
Proof.
  intros Hp result.
  assert (Hsame : snd result = db -> (forall row, fst result <> Ok row) ->
            exists p',
              get_product (snd result) product_id = Some p'
              /\ identity_kept p p'
              /\ unset_fields_kept upd p p'
              /\ (forall other, other <> product_id ->
                  get_product (snd result) other = get_product db other)
              /\ (forall row, fst result = Ok row -> row = p' /\ set_fields_applied upd p')).
  { intros -> Hfail. exists p. split; [exact Hp|].
    unfold identity_kept, unset_fields_kept.
    repeat split; try reflexivity; exfalso; now apply (Hfail row). }
  subst result. unfold update_product in *. revert Hsame. run_service.
  rewrite Hp, update_data_has_no_sku.
  destruct (negb _ && negb _); [intros Hsame; now apply Hsame|].
  destruct (setattr_all product_setattr p (ProductUpdate_dict upd)) as [row|] eqn:Hrow;
    [|intros Hsame; now apply Hsame].
  destruct (db_ok _) eqn:Hok; [intros _|intros Hsame; now apply Hsame].
  cbn [fst snd]. apply updated_row in Hrow as [Hid [Hunset Hset]].
  destruct (find_id_some _ _ _ _ Hp) as [_ Hkey].
  assert (Hrowid : Product.id row = product_id) by (destruct Hid as [_ [-> _]]; exact Hkey).
  exists row. unfold get_product. cbn [with_products products].
  split; [|split; [exact Hid|split; [exact Hunset|split]]].
  - rewrite <- Hrowid. apply find_replace_same with (p := p). now rewrite Hrowid.
  - intros other Hother. apply find_replace_other. now rewrite Hrowid.
  - intros r Hr. injection Hr as <-. now split.
Qed.

(** C5. For a stored product and any request body, [PUT /products/{id}]
    answers as it would without the body's [sku] key, and leaves under that
    id a product with the SKU (and the id and the owner) it had and with the
    prior value of every field that the body does not set; the other products
    are found as before. When the update succeeds, the product returned is
    the one stored and each field that the body sets holds the value sent. *)
Theorem update_keeps_sku_and_unset_fields (product_id : Z) (body : ProductUpdateBody)
    (user : User.t) (p : Product.t) (db : Db) :
  get_product db product_id = Some p ->
  let result := update_existing_product product_id body user db in
  result = update_existing_product product_id (MkProductUpdateBody (body_fields body) None) user db
  /\ exists p',
       get_product (snd result) product_id = Some p'
       /\ identity_kept p p'
       /\ unset_fields_kept (body_fields body) p p'
       /\ (forall other, other <> product_id ->
           get_product (snd result) other = get_product db other)
       /\ (forall row, fst result = Ok row ->
           row = p' /\ set_fields_applied (body_fields body) p').
Proof.
  intros Hp. split; [reflexivity|].
  unfold update_existing_product, depends, ProductUpdate_parse.
  destruct (get_current_active_user user) as [current_user | status_code detail |].
  - now apply update_product_effect.
  - cbn [fst snd]. exists p. split; [exact Hp|].
    unfold identity_kept, unset_fields_kept. repeat split; try reflexivity; discriminate.
  - cbn [fst snd]. exists p. split; [exact Hp|].
    unfold identity_kept, unset_fields_kept. repeat split; try reflexivity; discriminate.
Qed.

Lemma update_keeps_sku_and_unset_fields_witness :
  let body :=
    MkProductUpdateBody (MkProductUpdate None None (Some (Some (5 # 1))) None None None)
      (Some (Some "HACKED-1")) in
  let result := update_existing_product 1 body testuser sample_db in
  result = update_existing_product 1 (MkProductUpdateBody (body_fields body) None)
             testuser sample_db
  /\ exists p',
       get_product (snd result) 1 = Some p'
       /\ identity_kept laptop p'
       /\ unset_fields_kept (body_fields body) laptop p'
       /\ (forall other, other <> 1 ->
           get_product (snd result) other = get_product sample_db other)
       /\ (forall row, fst result = Ok row ->
           row = p' /\ set_fields_applied (body_fields body) p').
Proof.
  exact (update_keeps_sku_and_unset_fields 1
           (MkProductUpdateBody (MkProductUpdate None None (Some (Some (5 # 1))) None None None)
              (Some (Some "HACKED-1")))
           testuser laptop sample_db eq_refl).
Defined.

Example update_price_with_sku_in_body :
  let body :=
    MkProductUpdateBody (MkProductUpdate None None (Some (Some (5 # 1))) None None None)
      (Some (Some "HACKED-1")) in
  update_existing_product 1 body testuser sample_db
  = (Ok (Product.Build 1 "Gaming Laptop Pro"
           (Some "High-performance gaming laptop with RTX 4080 graphics") (5 # 1) 25
           (Some "Electronics") "GAMINGLA-0001" (Some true) 2),
     MkDb [admin; testuser; otheruser]
       [Product.Build 1 "Gaming Laptop Pro"
          (Some "High-performance gaming laptop with RTX 4080 graphics") (5 # 1) 25
          (Some "Electronics") "GAMINGLA-0001" (Some true) 2;
        headphones; coffee]).
Proof. reflexivity. Qed.

Example update_with_null_name_is_refused :
  update_existing_product 1
    (MkProductUpdateBody (MkProductUpdate (Some None) None None None None None) None)
    testuser sample_db
  = (IntegrityError, sample_db).
Proof. reflexivity. Qed.

(** ** Missing targets: 404 and the superuser gate *)

Lemma missing_user_is_not_acting (db : Db) (acting : User.t) (user_id : Z) :
  In acting (users db) -> get_user db user_id = None -> (user_id =? User.id acting) = false.
Proof.
  intros Hin Hnone. unfold get_user in Hnone.
  pose proof (find_none _ _ Hnone acting Hin) as H. cbn beta in H. lia.
Qed.

(** C8, as the code has it. For an active acting user: a product update or
    deletion whose product does not exist fails with status 404, whoever
    asks, and leaves the store as it was. The user endpoints resolve the
    superuser dependency before their body runs: for a superuser (who is a
    stored user), an update or deletion of a user that does not exist fails
    with status 404; for any other caller both fail with status 403, whether
    the target exists or not. *)
Theorem missing_target_not_found (product_id user_id : Z) (body : ProductUpdateBody)
    (user_update : UserUpdate) (acting : User.t) (db : Db) :
  User.is_active acting = Some true ->
  In acting (users db) ->
  (get_product db product_id = None ->
   update_existing_product product_id body acting db
   = (HTTPException 404 "Product not found", db)
   /\ delete_existing_product product_id acting db
      = (HTTPException 404 "Product not found", db))
  /\ (get_user db user_id = None ->
      is_true (User.is_superuser acting) = true ->
      update_existing_user user_id user_update acting db
      = (HTTPException 404 "User not found", db)
      /\ delete_existing_user user_id acting db
         = (HTTPException 404 "User not found", db))
  /\ (is_true (User.is_superuser acting) = false ->
      error_status (fst (update_existing_user user_id user_update acting db)) = Some 403
      /\ error_status (fst (delete_existing_user user_id acting db)) = Some 403
      /\ snd (update_existing_user user_id user_update acting db) = db
      /\ snd (delete_existing_user user_id acting db) = db).
Proof.
  intros Hactive Hin. split; [|split].
  - intros Hnone.
    unfold update_existing_product, delete_existing_product, depends, get_current_active_user.
    rewrite Hactive. unfold update_product, delete_product. run_service.
    now rewrite Hnone.
  - intros Hnone Hsu.
    unfold update_existing_user, delete_existing_user, depends, get_current_superuser.
    rewrite Hsu, (missing_user_is_not_acting db acting user_id Hin Hnone).
    unfold update_user, delete_user. run_service. now rewrite Hnone.
  - intros Hsu.
    unfold update_existing_user, delete_existing_user, depends, get_current_superuser.
    rewrite Hsu. repeat split.
Qed.

Lemma missing_target_not_found_witness :
  update_existing_product 99 (MkProductUpdateBody (MkProductUpdate None None None None None None) None)
    otheruser sample_db
  = (HTTPException 404 "Product not found", sample_db)
  /\ delete_existing_product 99 otheruser sample_db
     = (HTTPException 404 "Product not found", sample_db).
Proof.
  apply (proj1 (missing_target_not_found 99 99
                  (MkProductUpdateBody (MkProductUpdate None None None None None None) None)
                  (MkUserUpdate None None None None) otheruser sample_db eq_refl
                  (or_intror (or_intror (or_introl eq_refl))))).
  reflexivity.
Defined.

(** C8 as stated fails on the user endpoints: [testuser], active and not a
    superuser, asks to update and to delete user 99, who does not exist, and
    is answered 403 both times. *)
Lemma missing_user_answered_forbidden :
  get_user sample_db 99 = None
  /\ update_existing_user 99 (MkUserUpdate None None (Some (Some "X")) None) testuser sample_db
     = (HTTPException 403 "Forbidden", sample_db)
  /\ delete_existing_user 99 testuser sample_db = (HTTPException 403 "Forbidden", sample_db).
Proof. repeat split. Qed.

(** ** SKU generation *)

Lemma digits_of_uint (u : Decimal.uint) :
  Text.sforall Text.is_digit (NilEmpty.string_of_uint u) = true.
Proof. induction u; simpl; try reflexivity; exact IHu. Qed.

Lemma sforall_app (ok : ascii -> bool) (s t : string) :
  Text.sforall ok (s ++ t) = Text.sforall ok s && Text.sforall ok t.
Proof. induction s as [|c s IH]; simpl; [reflexivity | now rewrite IH, andb_assoc]. Qed.

Lemma format_04d_digits (counter : Z) : Text.sforall Text.is_digit (format_04d counter) = true.
Proof.
  unfold format_04d. rewrite sforall_app. apply andb_true_iff. split.
  - generalize (4 - String.length (NilZero.string_of_uint (N.to_uint (Z.to_N counter))))%nat.
    intros n. induction n as [|n IH]; simpl; [reflexivity | exact IH].
  - unfold NilZero.string_of_uint. destruct (N.to_uint (Z.to_N counter)) eqn:E;
      try reflexivity; rewrite <- E; apply digits_of_uint.
Qed.

Lemma upper_format_04d (counter : Z) : Text.upper (format_04d counter) = format_04d counter.
Proof. apply smap_fixed with (ok := Text.is_digit); [apply to_upper_digit | apply format_04d_digits]. Qed.

Lemma upper_clean_base_name (base_name : string) :
  Text.upper (clean_base_name base_name) = clean_base_name base_name.
Proof.
  unfold clean_base_name.
  destruct (Text.truthy (Text.take 8 (Text.upper (Text.sfilter Text.is_alnum base_name))));
    cbn [negb]; [|reflexivity].
  unfold Text.upper. rewrite smap_take. f_equal. apply upper_idempotent.
Qed.

Lemma upper_counter_sku (clean_name : string) (counter : Z) :
  Text.upper clean_name = clean_name ->
  Text.upper (counter_sku clean_name counter) = counter_sku clean_name counter.
Proof.
  intros H. unfold counter_sku, Text.upper in *.
  rewrite !smap_app, H. f_equal. f_equal. apply upper_format_04d.
Qed.

Lemma upper_random_sku (clean_name uuid_text : string) :
  Text.upper clean_name = clean_name ->
  Text.upper (random_sku clean_name uuid_text) = random_sku clean_name uuid_text.
Proof.
  intros H. unfold random_sku, uuid_part. unfold Text.upper at 1.
  rewrite !smap_app. fold (Text.upper clean_name). rewrite H. f_equal. f_equal.
  apply upper_idempotent.
Qed.

(** For a SKU in upper case, the look-up answers [None] exactly when no
    stored product carries it. *)
Lemma not_found_is_free (db : Db) (sku : string) :
  Text.upper sku = sku -> (get_product_by_sku db sku = None <-> sku_free db sku).
Proof.
  intros Hup. unfold get_product_by_sku, sku_free. rewrite Hup. split.
  - intros Hnone p Hin Heq. pose proof (find_none _ _ Hnone p Hin) as H. cbn beta in H.
    apply String.eqb_neq in H. contradiction.
  - intros Hfree. destruct (find _ _) as [p|] eqn:E; [|reflexivity].
    apply find_some in E as [Hin Heq]. apply String.eqb_eq in Heq.
    now destruct (Hfree p Hin).
Qed.

(** *** The counter loop *)

Lemma counter_loop_never_out_of_steps (db : Db) (clean_name : string) (steps : nat)
    (counter : Z) :
  counter <= 9999 -> 9999 - counter < Z.of_nat steps ->
  counter_loop db clean_name steps counter <> OutOfSteps.
Proof.
  revert counter. induction steps as [|steps IH]; intros counter Hc Hsteps; [lia|].
  cbn [counter_loop]. destruct (get_product_by_sku db _); [|discriminate].
  destruct (counter + 1 >? 9999) eqn:E; [discriminate|].
  apply IH; lia.
Qed.

Lemma counter_loop_first_free (db : Db) (clean_name : string) (steps : nat) (counter c : Z) :
  counter <= c <= 9999 -> c - counter < Z.of_nat steps ->
  get_product_by_sku db (counter_sku clean_name c) = None ->
  (forall c', counter <= c' < c -> get_product_by_sku db (counter_sku clean_name c') <> None) ->
  counter_loop db clean_name steps counter = Returned (counter_sku clean_name c).
Proof.
  revert counter. induction steps as [|steps IH]; intros counter Hc Hsteps Hfree Htaken; [lia|].
  cbn [counter_loop]. destruct (Z.eq_dec counter c) as [-> | Hneq].
  - now rewrite Hfree.
  - destruct (get_product_by_sku db (counter_sku clean_name counter)) eqn:E.
    + assert ((counter + 1 >? 9999) = false) as -> by lia.
      apply IH; try lia; try assumption. intros c' Hc'. apply Htaken. lia.
    + exfalso. apply (Htaken counter); [lia | exact E].
Qed.

Lemma counter_loop_all_taken (db : Db) (clean_name : string) (steps : nat) (counter : Z) :
  counter <= 9999 -> 9999 - counter < Z.of_nat steps ->
  (forall c, counter <= c <= 9999 -> get_product_by_sku db (counter_sku clean_name c) <> None) ->
  counter_loop db clean_name steps counter = Broke.
Proof.
  revert counter. induction steps as [|steps IH]; intros counter Hc Hsteps Htaken; [lia|].
  cbn [counter_loop].
  destruct (get_product_by_sku db (counter_sku clean_name counter)) eqn:E.
  - destruct (counter + 1 >? 9999) eqn:Hlast; [reflexivity|].
    apply IH; try lia. intros c Hcc. apply Htaken. lia.
  - exfalso. apply (Htaken counter); [lia | exact E].
Qed.

Lemma counter_loop_returned (db : Db) (clean_name : string) (steps : nat) (counter : Z)
    (sku : string) :
  counter_loop db clean_name steps counter = Returned sku ->
  get_product_by_sku db sku = None /\ exists c, sku = counter_sku clean_name c.
Proof.
  revert counter. induction steps as [|steps IH]; intros counter H; [discriminate|].
  cbn [counter_loop] in H.
  destruct (get_product_by_sku db (counter_sku clean_name counter)) eqn:E.
  - destruct (counter + 1 >? 9999); [discriminate|]. now apply IH in H.
  - injection H as <-. split; [exact E | now exists counter].
Qed.

(** *** The random loop *)

Lemma random_loop_first_free (db : Db) (clean_name : string) (uuid4 : nat -> string)
    (fuel draw k : nat) :
  (draw <= k)%nat -> (k - draw < fuel)%nat ->
  get_product_by_sku db (random_sku clean_name (uuid4 k)) = None ->
  (forall j, (draw <= j < k)%nat ->
             get_product_by_sku db (random_sku clean_name (uuid4 j)) <> None) ->
  random_loop db clean_name uuid4 fuel draw = Some (random_sku clean_name (uuid4 k)).
Proof.
  revert draw. induction fuel as [|fuel IH]; intros draw Hk Hfuel Hfree Htaken; [lia|].
  cbn [random_loop]. destruct (Nat.eq_dec draw k) as [-> | Hneq].
  - now rewrite Hfree.
  - destruct (get_product_by_sku db (random_sku clean_name (uuid4 draw))) eqn:E.
    + apply IH; try lia; try assumption. intros j Hj. apply Htaken. lia.
    + exfalso. apply (Htaken draw); [lia | exact E].
Qed.

Lemma random_loop_returned (db : Db) (clean_name : string) (uuid4 : nat -> string)
    (fuel draw : nat) (sku : string) :
  random_loop db clean_name uuid4 fuel draw = Some sku ->
  get_product_by_sku db sku = None /\ exists k, sku = random_sku clean_name (uuid4 k).
Proof.
  revert draw. induction fuel as [|fuel IH]; intros draw H; [discriminate|].
  cbn [random_loop] in H.
  destruct (get_product_by_sku db (random_sku clean_name (uuid4 draw))) eqn:E.
  - now apply IH in H.
  - injection H as <-. split; [exact E | now exists draw].
Qed.

(** *** The generator *)

Lemma clean_name_not_given (base_name : option string) :
  given base_name = false -> clean_name_of base_name = "PROD".
Proof. destruct base_name as [[|c s]|]; [reflexivity | discriminate | reflexivity]. Qed.

Lemma upper_clean_name_of (base_name : option string) :
  Text.upper (clean_name_of base_name) = clean_name_of base_name.
Proof. destruct base_name as [b|]; [apply upper_clean_base_name | reflexivity]. Qed.

Lemma generate_unique_sku_phases (db : Db) (base_name : option string)
    (uuid4 : nat -> string) (fuel : nat) :
  generate_unique_sku db base_name uuid4 fuel
  = if given base_name then
      match counter_loop db (clean_name_of base_name) (Z.to_nat 9999) 1 with
      | Returned sku => Some sku
      | Broke => random_loop db (clean_name_of base_name) uuid4 fuel 0
      | OutOfSteps => None
      end
    else random_loop db (clean_name_of base_name) uuid4 fuel 0.
Proof.
  unfold generate_unique_sku. destruct (given base_name) eqn:E; [reflexivity|].
  now rewrite clean_name_not_given.
Qed.

Example sku_from_name :
  generate_unique_sku sample_db (Some "Gaming Laptop Pro") sample_uuid 3 = Some "GAMINGLA-0002"
  /\ generate_unique_sku sample_db (Some "Tea, green!") sample_uuid 3 = Some "TEAGREEN-0001"
  /\ generate_unique_sku sample_db (Some "***") sample_uuid 3 = Some "PROD-0001"
  /\ generate_unique_sku sample_db None sample_uuid 3 = Some "PROD-9F1C2AB4".
Proof. repeat split; vm_compute; reflexivity. Qed.

(** C4, as the code has it. The base name is cleaned: non-alphanumerics
    stripped, upper-cased, cut to 8 characters, [PROD] if nothing is left or
    no name was given. For a non-empty base name the generator returns
    [{clean}-{counter:04d}] for the first counter in 1..9999 whose SKU the
    look-up does not find. When all 9999 are found, or when the base name is
    absent or empty, it returns [{clean}-{token}] for the first UUID drawn
    whose SKU the look-up does not find (the model follows [fuel] draws). A
    SKU that is returned is not found by the look-up and is the SKU of no
    stored product. *)
Theorem generate_unique_sku_first_free (db : Db) (base_name : option string)
    (uuid4 : nat -> string) (fuel : nat) :
  let clean_name := clean_name_of base_name in
  let free sku := get_product_by_sku db sku = None in
  (forall c,
     given base_name = true ->
     1 <= c <= 9999 ->
     free (counter_sku clean_name c) ->
     (forall c', 1 <= c' < c -> ~ free (counter_sku clean_name c')) ->
     generate_unique_sku db base_name uuid4 fuel = Some (counter_sku clean_name c))
  /\ (forall k,
        given base_name = false
        \/ (forall c, 1 <= c <= 9999 -> ~ free (counter_sku clean_name c)) ->
        free (random_sku clean_name (uuid4 k)) ->
        (forall j, (j < k)%nat -> ~ free (random_sku clean_name (uuid4 j))) ->
        (k < fuel)%nat ->
        generate_unique_sku db base_name uuid4 fuel = Some (random_sku clean_name (uuid4 k)))
  /\ (forall sku,
        generate_unique_sku db base_name uuid4 fuel = Some sku ->
        free sku /\ sku_free db sku).
Proof.
  intros clean_name free. rewrite generate_unique_sku_phases. fold clean_name.
  assert (Hup : Text.upper clean_name = clean_name) by apply upper_clean_name_of.
  split; [|split].
  - intros c Hgiven Hc Hfree Htaken. rewrite Hgiven.
    now rewrite (counter_loop_first_free db clean_name (Z.to_nat 9999) 1 c) by (try lia; assumption).
  - intros k Hphase Hfree Htaken Hfuel.
    assert (Hrandom : random_loop db clean_name uuid4 fuel 0
                      = Some (random_sku clean_name (uuid4 k))).
    { apply random_loop_first_free; try lia; try assumption.
      intros j Hj. apply Htaken. lia. }
    destruct (given base_name) eqn:Hgiven; [|exact Hrandom].
    destruct Hphase as [Hno | Hall]; [discriminate|].
    now rewrite (counter_loop_all_taken db clean_name (Z.to_nat 9999) 1) by (try lia; assumption).
  - intros sku H.
    assert (Hfree : free sku /\ Text.upper sku = sku).
    { destruct (given base_name).
      - destruct (counter_loop db clean_name (Z.to_nat 9999) 1) as [s| |] eqn:Hloop;
          [|idtac|discriminate].
        + injection H as <-. apply counter_loop_returned in Hloop as [Hnone [c ->]].
          split; [exact Hnone | now apply upper_counter_sku].
        + apply random_loop_returned in H as [Hnone [k ->]].
          split; [exact Hnone | now apply upper_random_sku].
      - apply random_loop_returned in H as [Hnone [k ->]].
        split; [exact Hnone | now apply upper_random_sku]. }
    destruct Hfree as [Hnone Hupper]. split; [exact Hnone|].
    now apply not_found_is_free.
Qed.

Lemma generate_unique_sku_first_free_witness :
  generate_unique_sku sample_db (Some "Gaming Laptop Pro") sample_uuid 3
  = Some (counter_sku (clean_name_of (Some "Gaming Laptop Pro")) 2).
Proof.
  apply (proj1 (generate_unique_sku_first_free sample_db (Some "Gaming Laptop Pro")
                  sample_uuid 3) 2).
  - reflexivity.
  - lia.
  - reflexivity.
  - intros c' Hc'. assert (c' = 1) as -> by lia. vm_compute. discriminate.
Defined.

(** The step budget of the counter loop is never what ends it. *)
Lemma generate_unique_sku_budget (db : Db) (clean_name : string) :
  counter_loop db clean_name (Z.to_nat 9999) 1 <> OutOfSteps.
Proof. apply counter_loop_never_out_of_steps; lia. Qed.

(** C4 as stated fails for the empty base name: its cleaned form is [PROD]
    and [PROD-0001] is free, yet the generator goes to the random form at
    once. *)
Lemma generate_unique_sku_empty_base_name :
  clean_base_name "" = "PROD"
  /\ counter_sku "PROD" 1 = "PROD-0001"
  /\ get_product_by_sku sample_db "PROD-0001" = None
  /\ generate_unique_sku sample_db (Some "") sample_uuid 3 = Some "PROD-9F1C2AB4".
Proof. repeat split; vm_compute; reflexivity. Qed.

(* ================================================================== *)
(** * Further properties of the services and endpoints *)
(* ================================================================== *)

(** ** Pages of a query *)

Section Pages.

Context {A : Type}.

Lemma firstn_two_pages (a b : nat) (rows : list A) :
  firstn (a + b) rows = (firstn a rows ++ firstn b (skipn a rows))%list.
Proof.
  revert rows. induction a as [|a IH]; intros rows; [reflexivity|].
  destruct rows as [|r rows]; simpl.
  - now rewrite firstn_nil.
  - now rewrite IH.
Qed.

Lemma in_sql_limit (n : Z) (rows : list A) (r : A) : In r (sql_limit n rows) -> In r rows.
Proof.
  unfold sql_limit. destruct (n <? 0); [tauto|].
  intros H. rewrite <- (firstn_skipn (Z.to_nat n) rows). apply in_or_app. now left.
Qed.

Lemma in_sql_offset (n : Z) (rows : list A) (r : A) : In r (sql_offset n rows) -> In r rows.
Proof.
  unfold sql_offset. intros H.
  rewrite <- (firstn_skipn (Z.to_nat n) rows). apply in_or_app. now right.
Qed.

Lemma sql_limit_length (n : Z) (rows : list A) :
  0 <= n -> Z.of_nat (List.length (sql_limit n rows)) <= n.
Proof.
  intros Hn. unfold sql_limit. assert ((n <? 0) = false) as -> by lia.
  rewrite length_firstn. lia.
Qed.

(** A page of [a + b] rows is the page of [a] rows followed by the next page
    of [b] rows. *)
Lemma sql_two_pages (skip a b : Z) (rows : list A) :
  0 <= skip -> 0 <= a -> 0 <= b ->
  sql_limit (a + b) (sql_offset skip rows)
  = (sql_limit a (sql_offset skip rows) ++ sql_limit b (sql_offset (skip + a) rows))%list.
Proof.
  intros Hs Ha Hb. unfold sql_limit, sql_offset.
  assert ((a + b <? 0) = false) as -> by lia.
  assert ((a <? 0) = false) as -> by lia.
  assert ((b <? 0) = false) as -> by lia.
  rewrite !Z2Nat.inj_add by lia. rewrite firstn_two_pages, skipn_skipn.
  now rewrite (Nat.add_comm (Z.to_nat a)).
Qed.

End Pages.

(** X1. Whatever [get_products] returns is a stored product that passes every
    filter that was given: it is active when [active_only] is set, its
    category is the one asked for, and its price lies within the bounds. With
    a non-negative limit the result has at most [limit] products. *)
Theorem get_products_only_matching (db : Db) (skip limit : Z) (category search : option string)
    (min_price max_price : option Q) (active_only : bool) :
  Forall (fun p =>
            In p (products db)
            /\ (active_only = true -> Product.is_active p = Some true)
            /\ (forall c, category = Some c -> c <> "" -> Product.category p = Some c)
            /\ (forall s, search = Some s -> s <> "" -> search_filter s p = true)
            /\ (forall lo, min_price = Some lo -> (lo <= Product.price p)%Q)
            /\ (forall hi, max_price = Some hi -> (Product.price p <= hi)%Q))
    (get_products db skip limit category search min_price max_price active_only)
  /\ (0 <= limit ->
      Z.of_nat (List.length
                  (get_products db skip limit category search min_price max_price active_only))
      <= limit).
Proof.
  split; [|intros Hl; now apply sql_limit_length].
  apply Forall_forall. intros p Hin. unfold get_products in Hin.
  apply in_sql_limit, in_sql_offset, filter_In in Hin as [Hstored Hpass].
  split; [exact Hstored|]. unfold products_filter in Hpass.
  repeat (apply andb_true_iff in Hpass as [Hpass ?]).
  repeat split.
  - intros ->. destruct (Product.is_active p) as [[|]|]; now try discriminate.
  - intros c -> Hc. destruct c as [|a c]; [contradiction|]. cbn in *.
    destruct (Product.category p) as [c'|]; [|discriminate].
    cbn in *. now apply String.eqb_eq in H2 as ->.
  - intros s -> Hs. destruct s as [|a s]; [contradiction|]. assumption.
  - intros lo ->. now apply Qle_bool_iff.
  - intros hi ->. now apply Qle_bool_iff.
Qed.

(** X2. Consecutive pages tile the result: for [get_products],
    [get_products_by_owner] and [get_users], the page of [a + b] rows at
    [skip] is the page of [a] rows at [skip] followed by the page of [b] rows
    at [skip + a]; no row is lost or repeated between pages. *)
Theorem consecutive_pages (db : Db) (skip a b owner_id : Z) (category search : option string)
    (min_price max_price : option Q) (active_only : bool) :
  0 <= skip -> 0 <= a -> 0 <= b ->
  get_products db skip (a + b) category search min_price max_price active_only
  = (get_products db skip a category search min_price max_price active_only
     ++ get_products db (skip + a) b category search min_price max_price active_only)%list
  /\ get_products_by_owner db owner_id skip (a + b)
     = (get_products_by_owner db owner_id skip a
        ++ get_products_by_owner db owner_id (skip + a) b)%list
  /\ get_users db skip (a + b) = (get_users db skip a ++ get_users db (skip + a) b)%list.
Proof.
  intros Hs Ha Hb. unfold get_products, get_products_by_owner, get_users.
  repeat split; now apply sql_two_pages.
Qed.

Lemma consecutive_pages_witness :
  get_products sample_db 0 (1 + 2) None None None None true
  = (get_products sample_db 0 1 None None None None true
     ++ get_products sample_db (0 + 1) 2 None None None None true)%list.
Proof.
  apply (proj1 (consecutive_pages sample_db 0 1 2 2 None None None None true
                  ltac:(lia) ltac:(lia) ltac:(lia))).
Defined.

(** X3. The caller's own listing holds only products that the caller owns; it
    reports as [total] the number of owned products capped at 100, the
    default limit of the query that counts them, and computes [page] and
    [pages] from [skip], [limit] and that total. An inactive caller is
    answered with status 400. *)
Theorem read_my_products_own_only (db : Db) (skip limit : Z) (user : User.t) :
  1 <= limit ->
  match read_my_products db skip limit user with
  | Ok r =>
      Forall (fun p => In p (products db) /\ Product.owner_id p = User.id user) (items r)
      /\ total r
         = Z.min 100 (Z.of_nat (List.length
                                  (filter (fun p => Product.owner_id p =? User.id user)
                                     (products db))))
      /\ page r = skip / limit + 1
      /\ pages r = ceil_div (total r) limit
      /\ size r = limit
  | HTTPException status_code _ => status_code = 400 /\ User.is_active user = Some false
  | IntegrityError => False
  end.
Proof.
  intros Hl. unfold read_my_products, get_current_active_user.
  destruct (User.is_active user) as [[|]|]; try (split; reflexivity);
    cbn [items total page pages size]; (split; [|split; [|split; [reflexivity|split]]]);
    try reflexivity; try (apply ceil_div_formula; lia).
  all: try (apply Forall_forall; intros p Hin; unfold get_products_by_owner in Hin;
            apply in_sql_limit, in_sql_offset, filter_In in Hin as [Hs Ho];
            split; [exact Hs | lia]).
  all: unfold get_products_by_owner, sql_limit, sql_offset, default_skip, default_limit;
    change (100 <? 0) with false; cbv iota;
    rewrite length_firstn, Nat2Z.inj_min, Z2Nat.id by lia; reflexivity.
Qed.

Lemma read_my_products_own_only_witness :
  match read_my_products sample_db 0 2 testuser with
  | Ok r =>
      Forall (fun p => In p (products sample_db) /\ Product.owner_id p = User.id testuser)
        (items r)
      /\ total r
         = Z.min 100 (Z.of_nat (List.length
                                  (filter (fun p => Product.owner_id p =? User.id testuser)
                                     (products sample_db))))
      /\ page r = 0 / 2 + 1
      /\ pages r = ceil_div (total r) 2
      /\ size r = 2
  | HTTPException status_code _ => status_code = 400 /\ User.is_active testuser = Some false
  | IntegrityError => False
  end.
Proof. exact (read_my_products_own_only sample_db 0 2 testuser ltac:(lia)). Defined.

(** ** Deleting and reading a product *)

(** X4. Once its owner or a superuser has deleted a product, the product is
    gone for good: reading it answers 404, deleting it again answers 404,
    every other product is read as before, the users are untouched and the
    store still satisfies its constraints. *)
Theorem deleted_product_is_gone (db : Db) (product_id : Z) (p : Product.t) (user : User.t) :
  db_ok db = true ->
  User.is_active user = Some true ->
  get_product db product_id = Some p ->
  can_modify_product user p = true ->
  let db' := snd (delete_existing_product product_id user db) in
  fst (delete_existing_product product_id user db) = Ok "Product deleted successfully"
  /\ read_product db' product_id user = HTTPException 404 "Product not found"
  /\ delete_existing_product product_id user db' = (HTTPException 404 "Product not found", db')
  /\ (forall other, other <> product_id ->
      read_product db' other user = read_product db other user)
  /\ users db' = users db
  /\ db_ok db' = true.
Proof.
  intros Hok Hactive Hp Hperm. cbn zeta.
  assert (Hdel : delete_existing_product product_id user db
                 = (Ok "Product deleted successfully",
                    with_products db
                      (filter (fun q => negb (Product.id q =? product_id)) (products db)))).
  { unfold delete_existing_product, depends, get_current_active_user. rewrite Hactive.
    unfold bind. now rewrite (delete_product_permitted product_id user p db Hok Hp Hperm). }
  rewrite Hdel. cbn [fst snd].
  set (db' := with_products db
                (filter (fun q => negb (Product.id q =? product_id)) (products db))).
  assert (Hgone : get_product db' product_id = None).
  { unfold get_product, db'. cbn [with_products products].
    now rewrite find_after_delete, Z.eqb_refl. }
  split; [reflexivity|]. split; [|split; [|split; [|split]]].
  - unfold read_product, get_current_active_user. now rewrite Hactive, Hgone.
  - unfold delete_existing_product, depends, get_current_active_user. rewrite Hactive.
    unfold delete_product. run_service. now rewrite Hgone.
  - intros other Hother. unfold read_product, get_product, db'.
    cbn [with_products products]. rewrite find_after_delete.
    apply Z.eqb_neq in Hother. now rewrite Hother.
  - reflexivity.
  - now apply db_ok_filter_products.
Qed.

Lemma deleted_product_is_gone_witness :
  let db' := snd (delete_existing_product 1 testuser sample_db) in
  fst (delete_existing_product 1 testuser sample_db) = Ok "Product deleted successfully"
  /\ read_product db' 1 testuser = HTTPException 404 "Product not found"
  /\ delete_existing_product 1 testuser db' = (HTTPException 404 "Product not found", db')
  /\ (forall other, other <> 1 ->
      read_product db' other testuser = read_product sample_db other testuser)
  /\ users db' = users sample_db
  /\ db_ok db' = true.
Proof.
  exact (deleted_product_is_gone sample_db 1 laptop testuser eq_refl eq_refl eq_refl eq_refl).
Defined.

(** ** Categories *)

Lemma in_sql_distinct (values : list string) (v : string) :
  In v (sql_distinct values) <-> In v values.
Proof.
  induction values as [|w values IH]; simpl; [tauto|].
  rewrite filter_In, IH, negb_true_iff, String.eqb_neq.
  destruct (String.string_dec w v) as [-> | Hneq]; [tauto|].
  split; [tauto|]. intros [H | H]; [contradiction|]. right. split; [exact H|]. congruence.
Qed.

Lemma sql_distinct_nodup (values : list string) : NoDup (sql_distinct values).
Proof.
  induction values as [|w values IH]; simpl; constructor.
  - rewrite filter_In, negb_true_iff, String.eqb_neq. tauto.
  - now apply NoDup_filter.
Qed.

Lemma in_not_null {A} (column : list (option A)) (v : A) :
  In v (not_null column) <-> In (Some v) column.
Proof.
  induction column as [|[w|] column IH]; simpl; [tauto| |].
  - rewrite IH. split; intros [H | H]; auto; left; congruence.
  - rewrite IH. split; [tauto|]. intros [H | H]; [discriminate | exact H].
Qed.

(** X5. For an active caller, the category list has no duplicate and never
    holds the empty string, and a category is listed exactly when it is not
    empty and is the category of some stored product. *)
Theorem get_categories_distinct_non_empty (db : Db) (user : User.t) :
  User.is_active user <> Some false ->
  exists categories,
    get_categories db user = Ok categories
    /\ NoDup categories
    /\ (forall c, In c categories <->
                  c <> "" /\ exists p, In p (products db) /\ Product.category p = Some c).
Proof.
  intros Hactive. unfold get_categories, get_current_active_user.
  exists (filter Text.truthy (sql_distinct (not_null (map Product.category (products db))))).
  split; [destruct (User.is_active user) as [[|]|]; [reflexivity | contradiction | reflexivity]|].
  split; [apply NoDup_filter, sql_distinct_nodup|].
  intros c. rewrite filter_In, in_sql_distinct, in_not_null, in_map_iff.
  split.
  - intros [[p [Hc Hin]] Hne]. split; [now destruct c | now exists p].
  - intros [Hne [p [Hin Hc]]]. split; [now exists p | destruct c; [contradiction | reflexivity]].
Qed.

Lemma get_categories_distinct_non_empty_witness :
  exists categories,
    get_categories sample_db testuser = Ok categories
    /\ NoDup categories
    /\ (forall c, In c categories <->
                  c <> "" /\ exists p, In p (products sample_db) /\ Product.category p = Some c).
Proof.
  apply (get_categories_distinct_non_empty sample_db testuser). discriminate.
Defined.

Example categories_of_sample :
  get_categories sample_db testuser = Ok ["Electronics"; "Food & Beverages"].
Proof. reflexivity. Qed.

(** ** Statistics *)

Lemma length_filter_split {A} (f : A -> bool) (rows : list A) :
  (List.length (filter f rows) + List.length (filter (fun r => negb (f r)) rows))%nat
  = List.length rows.
Proof.
  induction rows as [|r rows IH]; simpl; [reflexivity|].
  destruct (f r); simpl; lia.
Qed.

(** X6. In the statistics the active and inactive counts add up to the total,
    neither is negative, and the inactive count is the number of rows whose
    active flag is not true (false or NULL). The owner filter is applied for
    a non-zero owner id only: with owner 0, as with no owner, the counts are
    over all products. *)
Theorem get_product_statistics_counts (db : Db) (owner_id : option Z) :
  let s := get_product_statistics db owner_id in
  let rows := statistics_rows db owner_id in
  total_products s = active_products s + inactive_products s
  /\ 0 <= active_products s <= total_products s
  /\ inactive_products s
     = Z.of_nat (List.length (filter (fun p => negb (is_true (Product.is_active p))) rows))
  /\ (forall n, owner_id = Some n -> n <> 0 ->
      total_products s
      = Z.of_nat (List.length (filter (fun p => Product.owner_id p =? n) (products db))))
  /\ get_product_statistics db (Some 0) = get_product_statistics db None
  /\ total_products (get_product_statistics db None) = Z.of_nat (List.length (products db)).
Proof.
  cbn zeta. unfold get_product_statistics. cbn [total_products active_products inactive_products].
  pose proof (length_filter_split (fun p => is_true (Product.is_active p))
                (statistics_rows db owner_id)) as Hsplit.
  cbn beta in Hsplit. repeat split; try lia.
  intros n -> Hn. unfold statistics_rows, owner_given.
  apply Z.eqb_neq in Hn. now rewrite Hn.
Qed.

Example statistics_of_sample :
  get_overview_statistics sample_db testuser = Ok (MkStatistics 3 3 0)
  /\ get_overview_statistics sample_db otheruser = Ok (MkStatistics 0 0 0)
  /\ get_admin_statistics sample_db admin = Ok (MkStatistics 3 3 0)
  /\ get_admin_statistics sample_db testuser = HTTPException 403 "Forbidden".
Proof. repeat split. Qed.

(** ** Replacing a row by its key *)

Section ReplaceByKey.

Context {A : Type} (key : A -> Z).

Lemma replaced_absent (row : A) (rows : list A) :
  existsb (fun q => key q =? key row) rows = false -> replaced key row rows = rows.
Proof.
  unfold replaced. induction rows as [|q rows IH]; simpl; [reflexivity|].
  intros H. apply orb_false_iff in H as [Hq Hrows]. now rewrite Hq, IH.
Qed.

Lemma replaced_keys (row : A) (rows : list A) : map key (replaced key row rows) = map key rows.
Proof.
  unfold replaced. rewrite map_map. apply map_ext. intros q.
  destruct (key q =? key row) eqn:E; [|reflexivity]. apply Z.eqb_eq in E. now rewrite E.
Qed.

Lemma in_replaced (row : A) (rows : list A) (x : A) :
  In x (replaced key row rows) -> x = row \/ (In x rows /\ key x <> key row).
Proof.
  unfold replaced. rewrite in_map_iff. intros [q [Hx Hq]].
  destruct (key q =? key row) eqn:E; [now left|].
  right. subst x. split; [exact Hq | now apply Z.eqb_neq].
Qed.

Lemma find_replaced_same (row p : A) (rows : list A) :
  find (fun q => key q =? key row) rows = Some p ->
  find (fun q => key q =? key row) (replaced key row rows) = Some row.
Proof.
  unfold replaced. induction rows as [|q rows IH]; simpl; [discriminate|].
  destruct (key q =? key row) eqn:E.
  - intros _. simpl. now rewrite Z.eqb_refl.
  - intros H. simpl. rewrite E. now apply IH.
Qed.

Lemma find_replaced_other (row : A) (other : Z) (rows : list A) :
  other <> key row ->
  find (fun q => key q =? other) (replaced key row rows) = find (fun q => key q =? other) rows.
Proof.
  intros Hneq. unfold replaced. induction rows as [|q rows IH]; simpl; [reflexivity|].
  destruct (key q =? key row) eqn:E; simpl.
  - apply Z.eqb_eq in E. rewrite E.
    assert ((key row =? other) = false) as -> by lia. exact IH.
  - destruct (key q =? other); [reflexivity | exact IH].
Qed.

(** Replacing a row keeps a column distinct when no other row holds the new
    row's value in that column. *)
Lemma distinct_after_replace {B} (eqb : B -> B -> bool) (f : A -> B) (row : A)
    (rows : list A) :
  (forall a b, eqb a b = true <-> a = b) ->
  distinct_by Z.eqb (map key rows) = true ->
  distinct_by eqb (map f rows) = true ->
  (forall x, In x rows -> key x <> key row -> f x <> f row) ->
  distinct_by eqb (map f (replaced key row rows)) = true.
Proof.
  intros Heqb. induction rows as [|q rows IH]; intros Hkeys Hcol Hfresh; [reflexivity|].
  cbn [map distinct_by] in Hkeys, Hcol.
  apply andb_true_iff in Hkeys as [Hq Hkeys]. apply andb_true_iff in Hcol as [Hfq Hcol].
  apply negb_true_iff in Hq, Hfq.
  rewrite existsb_over_map in Hq. rewrite existsb_over_map in Hfq.
  assert (Hrest : forall x, In x rows -> key x <> key row -> f x <> f row).
  { intros x Hx. apply Hfresh. now right. }
  change (replaced key row (q :: rows))
    with ((if key q =? key row then row else q) :: replaced key row rows).
  cbn [map distinct_by]. apply andb_true_iff. split; [|now apply IH].
  apply negb_true_iff. rewrite existsb_over_map.
  destruct (key q =? key row) eqn:Ek.
  - apply Z.eqb_eq in Ek. rewrite Ek in Hq. rewrite replaced_absent.
    + destruct (existsb (fun a => eqb (f row) (f a)) rows) eqn:E; [exfalso|reflexivity].
      apply existsb_exists in E as [x [Hx Hfx]]. apply Heqb in Hfx.
      apply (Hrest x Hx); [|now symmetry].
      intros Hkx.
      assert (existsb (fun a => key row =? key a) rows = true); [|congruence].
      apply existsb_exists. exists x. split; [exact Hx | lia].
    + rewrite <- Hq. apply existsb_ext_in. intros x _. apply Z.eqb_sym.
  - apply Z.eqb_neq in Ek.
    destruct (existsb (fun a => eqb (f q) (f a)) (replaced key row rows)) eqn:E;
      [exfalso|reflexivity].
    apply existsb_exists in E as [x [Hx Hfx]]. apply Heqb in Hfx.
    apply in_replaced in Hx as [-> | [Hx Hkx]].
    + now apply (Hfresh q (or_introl eq_refl) Ek).
    + assert (existsb (fun a => eqb (f q) (f a)) rows = true); [|congruence].
      apply existsb_exists. exists x. split; [exact Hx | now apply Heqb].
Qed.

End ReplaceByKey.

(** In a column of distinct values, the look-up by value finds the row that
    holds it. *)
Lemma distinct_find {A B} (eqb : B -> B -> bool) (f : A -> B) (rows : list A) (x : A) (v : B) :
  (forall a b, eqb a b = true <-> a = b) ->
  distinct_by eqb (map f rows) = true ->
  In x rows -> f x = v ->
  find (fun y => eqb (f y) v) rows = Some x.
Proof.
  intros Heqb. induction rows as [|q rows IH]; intros Hd Hin Hv; [contradiction|].
  cbn [map distinct_by] in Hd. apply andb_true_iff in Hd as [Hq Hd].
  apply negb_true_iff in Hq. rewrite existsb_over_map in Hq.
  cbn [find]. destruct Hin as [-> | Hin].
  - assert (eqb (f x) v = true) as -> by now apply Heqb. reflexivity.
  - destruct (eqb (f q) v) eqn:E; [exfalso | now apply IH].
    apply Heqb in E.
    assert (existsb (fun a => eqb (f q) (f a)) rows = true); [|congruence].
    apply existsb_exists. exists x. split; [exact Hin|]. apply Heqb. congruence.
Qed.

Lemma replaced_self {A} (key : A -> Z) (rows : list A) (u : A) :
  distinct_by Z.eqb (map key rows) = true ->
  find (fun q => key q =? key u) rows = Some u ->
  replaced key u rows = rows.
Proof.
  intros Hd Hf. unfold replaced. rewrite <- (map_id rows) at 2.
  apply map_ext_in. intros q Hq. destruct (key q =? key u) eqn:E; [|reflexivity].
  apply Z.eqb_eq in E. symmetry.
  now apply distinct_key_unique with (key := key) (l := rows) (k := key u).
Qed.

Lemma string_eqb_spec (a b : string) : String.eqb a b = true <-> a = b.
Proof. apply String.eqb_eq. Qed.

(** ** Updating a user *)

Lemma dict_email_of (upd : UserUpdate) : dict_email (UserUpdate_dict upd) = uu_email upd.
Proof. destruct upd as [[e|] [n|] [f|] [a|]]; reflexivity. Qed.

Lemma dict_username_of (upd : UserUpdate) : dict_username (UserUpdate_dict upd) = uu_username upd.
Proof. destruct upd as [[e|] [n|] [f|] [a|]]; reflexivity. Qed.

Lemma updated_user_row (upd : UserUpdate) (u row : User.t) :
  setattr_all user_setattr u (UserUpdate_dict upd) = Some row ->
  user_identity_kept u row /\ user_unset_fields_kept upd u row /\ user_set_fields_applied upd row.
Proof.
  unfold user_identity_kept, user_unset_fields_kept, user_set_fields_applied.
  destruct upd as [e n f a].
  destruct e as [[e|]|], n as [[n|]|], f as [f|], a as [a|];
    cbn; intros H; inversion H; cbn;
    repeat split; try reflexivity; try discriminate; intros v Hv; now inversion Hv.
Qed.

Lemma updated_user_row_exists (upd : UserUpdate) (u : User.t) :
  uu_email upd <> Some None -> uu_username upd <> Some None ->
  exists row, setattr_all user_setattr u (UserUpdate_dict upd) = Some row.
Proof.
  destruct upd as [e n f a].
  destruct e as [[e|]|], n as [[n|]|], f as [f|], a as [a|]; cbn;
    intros He Hn; try (now contradiction He); try (now contradiction Hn); eexists; reflexivity.
Qed.

Lemma settable_not_null (lookup : Db -> string -> option User.t) (db : Db) (user_id : Z)
    (field : option (option string)) :
  settable lookup db user_id field -> field <> Some None.
Proof. intros H ->. exact H. Qed.

Lemma settable_not_taken (lookup : Db -> string -> option User.t) (db : Db) (user_id : Z)
    (field : option (option string)) :
  settable lookup db user_id field ->
  match field with
  | Some v => taken_by_other (lookup_by lookup db v) user_id
  | None => false
  end = false.
Proof.
  destruct field as [[v|]|]; [|intros []|reflexivity].
  unfold settable, taken_by_other, lookup_by.
  destruct (lookup db v) as [holder|]; [|reflexivity].
  intros H. apply negb_false_iff. now apply Z.eqb_eq.
Qed.

(** When the checks of [update_user] pass and no NOT NULL column is set to
    [null], the commit is not refused. *)
Lemma update_user_commits (user_id : Z) (upd : UserUpdate) (u : User.t) (db : Db) :
  db_ok db = true ->
  get_user db user_id = Some u ->
  settable get_user_by_email db user_id (uu_email upd) ->
  settable get_user_by_username db user_id (uu_username upd) ->
  exists row,
    setattr_all user_setattr u (UserUpdate_dict upd) = Some row
    /\ update_user user_id upd db = (Ok row, with_users db (replace_user row (users db)))
    /\ db_ok (with_users db (replace_user row (users db))) = true.
Proof.
  intros Hok Hu He Hn.
  destruct (updated_user_row_exists upd u (settable_not_null _ _ _ _ He)
              (settable_not_null _ _ _ _ Hn)) as [row Hrow].
  exists row. split; [exact Hrow|].
  pose proof (updated_user_row upd u row Hrow) as [[Hid _] [Hunset Hset]].
  destruct (find_id_some _ _ _ _ Hu) as [Hin Hkey].
  assert (Hok' : db_ok (with_users db (replace_user row (users db))) = true).
  { unfold db_ok in *. cbn [with_users users products].
    repeat (apply andb_true_iff in Hok as [Hok ?]).
    change (replace_user row (users db)) with (replaced User.id row (users db)).
    repeat (apply andb_true_iff; split); try assumption.
    - now rewrite replaced_keys.
    - apply distinct_after_replace; try assumption; [apply string_eqb_spec|].
      intros x Hx Hkx Hsame. apply Hkx. rewrite Hid, Hkey.
      destruct Hunset as [Hunset _]. destruct Hset as [Hset _].
      destruct (uu_email upd) as [v|] eqn:Ev.
      + specialize (Hset v eq_refl). subst v.
        unfold settable, get_user_by_email in He.
        rewrite (distinct_find String.eqb User.email (users db) x (User.email row)
                   string_eqb_spec) in He by assumption.
        exact He.
      + rewrite (Hunset eq_refl) in Hsame.
        assert (x = u) as ->; [|exact Hkey].
        assert (Hfx : find (fun y => String.eqb (User.email y) (User.email u)) (users db)
                      = Some x)
          by (apply distinct_find; try assumption; apply string_eqb_spec).
        rewrite (distinct_find String.eqb User.email (users db) u (User.email u)
                   string_eqb_spec) in Hfx by (try assumption; reflexivity).
        now injection Hfx.
    - apply distinct_after_replace; try assumption; [apply string_eqb_spec|].
      intros x Hx Hkx Hsame. apply Hkx. rewrite Hid, Hkey.
      destruct Hunset as [_ [Hunset _]]. destruct Hset as [_ [Hset _]].
      destruct (uu_username upd) as [v|] eqn:Ev.
      + specialize (Hset v eq_refl). subst v.
        unfold settable, get_user_by_username in Hn.
        rewrite (distinct_find String.eqb User.username (users db) x (User.username row)
                   string_eqb_spec) in Hn by assumption.
        exact Hn.
      + rewrite (Hunset eq_refl) in Hsame.
        assert (x = u) as ->; [|exact Hkey].
        assert (Hfx : find (fun y => String.eqb (User.username y) (User.username u)) (users db)
                      = Some x)
          by (apply distinct_find; try assumption; apply string_eqb_spec).
        rewrite (distinct_find String.eqb User.username (users db) u (User.username u)
                   string_eqb_spec) in Hfx by (try assumption; reflexivity).
        now injection Hfx. }
  split; [|exact Hok'].
  unfold update_user. run_service. rewrite Hu, dict_email_of, dict_username_of.
  rewrite (settable_not_taken _ _ _ _ He), (settable_not_taken _ _ _ _ Hn), Hrow.
  now rewrite Hok'.
Qed.

(** X7. [update_user] re-checks uniqueness against the other users only: an
    email, or a username, that a different user holds is refused with status
    400 and the store is left as it was, while sending a user's own current
    email and username back is accepted and changes nothing. *)
Theorem update_user_unique_among_others (user_id : Z) (upd : UserUpdate) (u : User.t)
    (db : Db) :
  db_ok db = true ->
  get_user db user_id = Some u ->
  (forall e other,
     uu_email upd = Some (Some e) ->
     get_user_by_email db e = Some other -> User.id other <> user_id ->
     update_user user_id upd db = (HTTPException 400 "Email already registered", db))
  /\ (forall n other,
        uu_email upd = None ->
        uu_username upd = Some (Some n) ->
        get_user_by_username db n = Some other -> User.id other <> user_id ->
        update_user user_id upd db = (HTTPException 400 "Username already taken", db))
  /\ update_user user_id
       (MkUserUpdate (Some (Some (User.email u))) (Some (Some (User.username u))) None None) db
     = (Ok u, db).
Proof.
  intros Hok Hu. split; [|split].
  - intros e other He Hother Hneq. unfold update_user. run_service.
    rewrite Hu, dict_email_of, He. cbn [lookup_by]. rewrite Hother. cbn [taken_by_other].
    apply Z.eqb_neq in Hneq. now rewrite Hneq.
  - intros n other He Hn Hother Hneq. unfold update_user. run_service.
    rewrite Hu, dict_email_of, dict_username_of, He, Hn.
    cbn [lookup_by]. rewrite Hother. cbn [taken_by_other].
    apply Z.eqb_neq in Hneq. now rewrite Hneq.
  - destruct (find_id_some _ _ _ _ Hu) as [Hin Hkey].
    assert (Hids : distinct_by Z.eqb (map User.id (users db)) = true
                   /\ distinct_by String.eqb (map User.email (users db)) = true
                   /\ distinct_by String.eqb (map User.username (users db)) = true).
    { unfold db_ok in Hok. repeat (apply andb_true_iff in Hok as [Hok ?]). now repeat split. }
    destruct Hids as [Hids [Hemails Hnames]].
    destruct (update_user_commits user_id
                (MkUserUpdate (Some (Some (User.email u))) (Some (Some (User.username u)))
                   None None) u db Hok Hu) as [row [Hrow [Hrun _]]].
    + cbn. unfold get_user_by_email.
      rewrite (distinct_find String.eqb User.email (users db) u (User.email u)
                 string_eqb_spec) by (try assumption; reflexivity).
      exact Hkey.
    + cbn. unfold get_user_by_username.
      rewrite (distinct_find String.eqb User.username (users db) u (User.username u)
                 string_eqb_spec) by (try assumption; reflexivity).
      exact Hkey.
    + rewrite Hrun. cbn in Hrow. injection Hrow as <-.
      assert (Heta : User.Build (User.id u) (User.email u) (User.username u)
                       (User.hashed_password u) (User.full_name u) (User.is_active u)
                       (User.is_superuser u) = u) by now destruct u.
      rewrite Heta. change (replace_user u (users db)) with (replaced User.id u (users db)).
      rewrite replaced_self; [now destruct db | exact Hids|].
      unfold get_user in Hu. now rewrite Hkey.
Qed.

Lemma update_user_unique_among_others_witness :
  update_user 3 (MkUserUpdate (Some (Some "user@example.com")) None None None) sample_db
  = (HTTPException 400 "Email already registered", sample_db).
Proof.
  apply (proj1 (update_user_unique_among_others 3
                  (MkUserUpdate (Some (Some "user@example.com")) None None None)
                  otheruser sample_db eq_refl eq_refl) "user@example.com" testuser eq_refl eq_refl).
  discriminate.
Defined.

(** X8. On a store that satisfies its constraints, an update of a stored user
    that sets no NOT NULL column to [null] and sets the email and the
    username only to values that no other user holds always succeeds. The
    stored user then has the values sent in the fields that were set and the
    prior values in the others, keeps the id, the password hash and the
    superuser flag; every other user and every product is as before, and the
    store still satisfies its constraints. *)
Theorem update_user_succeeds (user_id : Z) (upd : UserUpdate) (u : User.t) (db : Db) :
  db_ok db = true ->
  get_user db user_id = Some u ->
  settable get_user_by_email db user_id (uu_email upd) ->
  settable get_user_by_username db user_id (uu_username upd) ->
  exists row db',
    update_user user_id upd db = (Ok row, db')
    /\ db_ok db' = true
    /\ get_user db' user_id = Some row
    /\ user_identity_kept u row
    /\ user_unset_fields_kept upd u row
    /\ user_set_fields_applied upd row
    /\ (forall other, other <> user_id -> get_user db' other = get_user db other)
    /\ products db' = products db.
Proof.
  intros Hok Hu He Hn.
  destruct (update_user_commits user_id upd u db Hok Hu He Hn) as [row [Hrow [Hrun Hok']]].
  pose proof (updated_user_row upd u row Hrow) as [Hid [Hunset Hset]].
  destruct (find_id_some _ _ _ _ Hu) as [_ Hkey].
  assert (Hrowid : User.id row = user_id) by (destruct Hid as [-> _]; exact Hkey).
  exists row, (with_users db (replace_user row (users db))).
  split; [exact Hrun|]. split; [exact Hok'|].
  unfold get_user. cbn [with_users users products].
  change (replace_user row (users db)) with (replaced User.id row (users db)).
  split; [|repeat split; try assumption; try apply Hid; try apply Hunset; try apply Hset].
  - rewrite <- Hrowid. apply find_replaced_same with (p := u).
    rewrite Hrowid. exact Hu.
  - intros other Hother. apply find_replaced_other. now rewrite Hrowid.
Qed.

Lemma update_user_succeeds_witness :
  exists row db',
    update_user 2 (MkUserUpdate (Some (Some "me@example.com")) None (Some None)
                     (Some (Some false))) sample_db = (Ok row, db')
    /\ db_ok db' = true
    /\ get_user db' 2 = Some row
    /\ user_identity_kept testuser row
    /\ user_unset_fields_kept (MkUserUpdate (Some (Some "me@example.com")) None (Some None)
                                 (Some (Some false))) testuser row
    /\ user_set_fields_applied (MkUserUpdate (Some (Some "me@example.com")) None (Some None)
                                  (Some (Some false))) row
    /\ (forall other, other <> 2 -> get_user db' other = get_user sample_db other)
    /\ products db' = products sample_db.
Proof.
  apply (update_user_succeeds 2
           (MkUserUpdate (Some (Some "me@example.com")) None (Some None) (Some (Some false)))
           testuser sample_db eq_refl eq_refl); exact I.
Defined.

(** ** Registering and looking up *)

Lemma find_app_one {A} (f : A -> bool) (rows : list A) (x : A) :
  find f (rows ++ [x]) = match find f rows with
                         | Some y => Some y
                         | None => if f x then Some x else None
                         end.
Proof.
  induction rows as [|r rows IH]; simpl; [reflexivity|].
  destruct (f r); [reflexivity | exact IH].
Qed.

(** X9. On a store that satisfies its constraints, a registration with an
    email and a username that nobody holds succeeds: the new user is active,
    carries the hash of the password, and is then found by id, by email and
    by username; the users stored before are found as before; the store
    still satisfies its constraints; and a second registration with the same
    email is refused with status 400. *)
Theorem register_then_lookup (get_password_hash : string -> string) (user again : UserCreate)
    (db : Db) :
  db_ok db = true ->
  get_user_by_email db (uc_email user) = None ->
  get_user_by_username db (uc_username user) = None ->
  exists u db',
    register get_password_hash user db = (Ok u, db')
    /\ db_ok db' = true
    /\ User.is_active u = Some true
    /\ User.hashed_password u = get_password_hash (uc_password user)
    /\ get_user db' (User.id u) = Some u
    /\ get_user_by_email db' (uc_email user) = Some u
    /\ get_user_by_username db' (uc_username user) = Some u
    /\ (forall user_id x, get_user db user_id = Some x -> get_user db' user_id = Some x)
    /\ (uc_email again = uc_email user ->
        register get_password_hash again db'
        = (HTTPException 400 "Email already registered", db')).
Proof.
  intros Hok He Hn.
  pose proof (create_user_fresh get_password_hash user db Hok He Hn) as Hrun.
  cbn zeta in Hrun.
  set (u := User.Build (next_id (map User.id (users db))) (uc_email user) (uc_username user)
              (get_password_hash (uc_password user)) (uc_full_name user) (Some true)
              (Some false)) in *.
  exists u, (with_users db (users db ++ [u])).
  assert (Hemail : get_user_by_email (with_users db (users db ++ [u])) (uc_email user) = Some u).
  { unfold get_user_by_email in *. cbn [with_users users].
    rewrite find_app_one, He. cbn [User.email u]. now rewrite String.eqb_refl. }
  split; [exact Hrun|]. split.
  { unfold register, create_user in Hrun. revert Hrun. run_service. rewrite He, Hn.
    fold u. destruct (db_ok (with_users db (users db ++ [u]))); [reflexivity|discriminate]. }
  split; [reflexivity|]. split; [reflexivity|]. split; [|split; [exact Hemail|split; [|split]]].
  - unfold get_user. cbn [with_users users]. rewrite find_app_one.
    pose proof (next_id_fresh (map User.id (users db))) as Hfresh.
    rewrite existsb_over_map in Hfresh. apply find_none_existsb in Hfresh.
    cbn [User.id u]. rewrite Hfresh. now rewrite Z.eqb_refl.
  - unfold get_user_by_username in *. cbn [with_users users].
    rewrite find_app_one, Hn. cbn [User.username u]. now rewrite String.eqb_refl.
  - intros user_id x Hx. unfold get_user in *. cbn [with_users users].
    now rewrite find_app_one, Hx.
  - intros Hsame. unfold register, create_user. run_service. now rewrite Hsame, Hemail.
Qed.

Lemma register_then_lookup_witness :
  exists u db',
    register (fun p => "hash:" ++ p) (MkUserCreate "new@example.com" "newuser" None "SecurePass123")
      sample_db = (Ok u, db')
    /\ db_ok db' = true
    /\ User.is_active u = Some true
    /\ User.hashed_password u = "hash:SecurePass123"
    /\ get_user db' (User.id u) = Some u
    /\ get_user_by_email db' "new@example.com" = Some u
    /\ get_user_by_username db' "newuser" = Some u
    /\ (forall user_id x, get_user sample_db user_id = Some x -> get_user db' user_id = Some x)
    /\ (uc_email (MkUserCreate "new@example.com" "second" None "OtherPass123")
        = "new@example.com" ->
        register (fun p => "hash:" ++ p)
          (MkUserCreate "new@example.com" "second" None "OtherPass123") db'
        = (HTTPException 400 "Email already registered", db')).
Proof.
  exact (register_then_lookup (fun p => "hash:" ++ p)
           (MkUserCreate "new@example.com" "newuser" None "SecurePass123")
           (MkUserCreate "new@example.com" "second" None "OtherPass123")
           sample_db eq_refl eq_refl eq_refl).
Defined.

(** ** Creating a product *)

Lemma generated_sku_free (db : Db) (base_name : option string) (uuid4 : nat -> string)
    (fuel : nat) (sku : string) :
  generate_unique_sku db base_name uuid4 fuel = Some sku ->
  get_product_by_sku db sku = None /\ Text.upper sku = sku.
Proof.
  rewrite generate_unique_sku_phases.
  pose proof (upper_clean_name_of base_name) as Hup.
  destruct (given base_name).
  - destruct (counter_loop db (clean_name_of base_name) (Z.to_nat 9999) 1) as [s| |] eqn:Hloop;
      [|idtac|discriminate]; intros H.
    + injection H as <-. apply counter_loop_returned in Hloop as [Hnone [c ->]].
      split; [exact Hnone | now apply upper_counter_sku].
    + apply random_loop_returned in H as [Hnone [k ->]].
      split; [exact Hnone | now apply upper_random_sku].
  - intros H. apply random_loop_returned in H as [Hnone [k ->]].
    split; [exact Hnone | now apply upper_random_sku].
Qed.


(** X10. A product whose payload names a SKU that a stored product already
    carries is refused with status 400 and the store is left as it was; the
    comparison upper-cases the SKU sent, so its letter case does not
    matter. *)
Theorem create_product_rejects_stored_sku (uuid4 : nat -> string) (fuel : nat)
    (product : ProductCreate) (owner_id : Z) (db : Db) (sku : string) (p : Product.t) :
  pc_sku product = Some sku ->
  sku <> "" ->
  In p (products db) ->
  Product.sku p = Text.upper sku ->
  create_product uuid4 fuel product owner_id db
  = Some (HTTPException 400 "SKU already exists", db).
Proof.
  intros Hsku Hne Hin Hp. unfold create_product. rewrite Hsku.
  assert (given (Some sku) = true) as -> by (destruct sku; [contradiction | reflexivity]).
  cbn [negb]. destruct (get_product_by_sku db sku) eqn:E; [reflexivity|exfalso].
  unfold get_product_by_sku in E.
  pose proof (find_none _ _ E p Hin) as H. cbn beta in H.
  apply String.eqb_neq in H. contradiction.
Qed.

Lemma create_product_rejects_stored_sku_witness :
  create_product sample_uuid 3
    (MkProductCreate "Another laptop" None (10 # 1) 1 None (Some "gamingla-0001")) 3 sample_db
  = Some (HTTPException 400 "SKU already exists", sample_db).
Proof.
  apply (create_product_rejects_stored_sku sample_uuid 3
           (MkProductCreate "Another laptop" None (10 # 1) 1 None (Some "gamingla-0001"))
           3 sample_db "gamingla-0001" laptop eq_refl).
  - discriminate.
  - now left.
  - reflexivity.
Defined.



(** ** When an update of a product succeeds *)






(** ** Login *)

Section LoginFacts.

Variable authenticate_user : Db -> string -> string -> option User.t.
Variable create_access_token : string -> Z -> string.
Variable minutes : Z.

Lemma verified_by_name (db : Db) (username password : string) (u : User.t) :
  authenticate_user db username password = Some u ->
  verified authenticate_user db username password u.
Proof. intros H. now left. Qed.

Lemma verified_by_email (db : Db) (username password : string) (by_email u : User.t) :
  authenticate_user db username password = None ->
  get_user_by_email db username = Some by_email ->
  authenticate_user db (User.username by_email) password = Some u ->
  verified authenticate_user db username password u.
Proof. intros Ha Hb Hc. right. split; [exact Ha|]. now exists by_email. Qed.

(** How the two endpoints resolve the account, and what each does with it. *)
Lemma login_resolved (username password : string) (db : Db) :
  (exists u,
     verified authenticate_user db username password u
     /\ login authenticate_user create_access_token minutes username password db
        = (if negb (py_bool (User.is_active u)) then HTTPException 400 "Inactive user"
           else issued create_access_token minutes u)
     /\ login_alt authenticate_user create_access_token minutes username password db
        = (if is_False (User.is_active u) then HTTPException 400 "Inactive user"
           else issued create_access_token minutes u))
  \/ ((forall u, ~ verified authenticate_user db username password u)
      /\ login authenticate_user create_access_token minutes username password db
         = HTTPException 401 "Incorrect username/email or password"
      /\ login_alt authenticate_user create_access_token minutes username password db
         = HTTPException 401 "Incorrect username/email or password").
Proof.
  unfold login, login_alt.
  destruct (authenticate_user db username password) as [u|] eqn:Ha.
  - left. exists u. split; [now apply verified_by_name | now split].
  - destruct (get_user_by_email db username) as [by_email|] eqn:Hb.
    + destruct (authenticate_user db (User.username by_email) password) as [u|] eqn:Hc.
      * left. exists u. split; [now apply verified_by_email with by_email | now split].
      * right. split; [|now split].
        intros u [H | [_ [b [Hb' Hu]]]]; [congruence|].
        rewrite Hb in Hb'. injection Hb' as <-. congruence.
    + right. split; [|now split].
      intros u [H | [_ [b [Hb' _]]]]; congruence.
Qed.

(** X13. The two login endpoints answer alike except for an account whose
    active flag is NULL: the form endpoint refuses it with status 400, the
    JSON endpoint issues it a token. *)
Theorem login_alt_differs_on_null_active (username password : string) (db : Db) :
  login_alt authenticate_user create_access_token minutes username password db
  = login authenticate_user create_access_token minutes username password db
  \/ exists u,
       verified authenticate_user db username password u
       /\ User.is_active u = None
       /\ login authenticate_user create_access_token minutes username password db
          = HTTPException 400 "Inactive user"
       /\ login_alt authenticate_user create_access_token minutes username password db
          = issued create_access_token minutes u.
Proof.
  destruct (login_resolved username password db) as [[u [Hv [Hl Ha]]] | [_ [Hl Ha]]].
  - rewrite Hl, Ha. destruct (User.is_active u) as [[|]|] eqn:E; cbn; try (now left).
    right. exists u. now repeat split.
  - left. now rewrite Hl, Ha.
Qed.

(** X14. The form login issues a token only for an account that the
    credentials verify for, by user name or, failing that, through the
    account holding the identifier as email, and whose active flag is true;
    the token is the one created for that account's user name. It answers
    401 exactly when the credentials verify for no account, and 400 when the
    verified account is not active. *)
Theorem login_outcomes (username password : string) (db : Db) :
  match login authenticate_user create_access_token minutes username password db with
  | Ok token =>
      exists u, verified authenticate_user db username password u
                /\ User.is_active u = Some true
                /\ Ok token = issued create_access_token minutes u
  | HTTPException status_code _ =>
      (status_code = 401 /\ forall u, ~ verified authenticate_user db username password u)
      \/ (status_code = 400
          /\ exists u, verified authenticate_user db username password u
                       /\ User.is_active u <> Some true)
  | IntegrityError => False
  end.
Proof.
  destruct (login_resolved username password db) as [[u [Hv [Hl _]]] | [Hnone [Hl _]]];
    rewrite Hl.
  - destruct (User.is_active u) as [[|]|] eqn:E; cbn.
    + exists u. now repeat split.
    + right. split; [reflexivity|]. exists u. split; [exact Hv | congruence].
    + right. split; [reflexivity|]. exists u. split; [exact Hv | congruence].
  - left. now split.
Qed.

End LoginFacts.

Example login_by_email_and_null_active :
  login sample_authenticate sample_token 30 "user@example.com" "UserPass123" login_db
  = Ok (MkToken "token-for-testuser" "bearer")
  /\ login sample_authenticate sample_token 30 "testuser" "wrong" login_db
     = HTTPException 401 "Incorrect username/email or password"
  /\ login sample_authenticate sample_token 30 "dormant" "UserPass123" login_db
     = HTTPException 400 "Inactive user"
  /\ login_alt sample_authenticate sample_token 30 "dormant" "UserPass123" login_db
     = Ok (MkToken "token-for-dormant" "bearer").
Proof. repeat split. Qed.

(** ** Token search: what the result depends on, and what it holds *)






(** X16. Whatever the query, with or without wildcard characters, the search
    returns stored products only, every one of them active, and with a
    non-negative limit at most [limit] of them. *)
Theorem full_text_search_active_only (db : Db) (query : string) (limit : Z) :
  Forall (fun p => In p (products db) /\ Product.is_active p = Some true)
    (full_text_search db query limit)
  /\ (0 <= limit -> Z.of_nat (List.length (full_text_search db query limit)) <= limit).
Proof.
  rewrite full_text_search_conditions. split; [|intros Hl; now apply sql_limit_length].
  apply Forall_forall. intros p Hin.
  apply in_sql_limit, filter_In in Hin as [Hstored Hpass].
  split; [exact Hstored|]. apply andb_true_iff in Hpass as [_ Hactive].
  destruct (Product.is_active p) as [[|]|]; now try discriminate.
Qed.

Example search_skips_inactive_products :
  full_text_search
    (MkDb [] [coffee;
              Product.Build 4 "Coffee Mug" None (5 # 1) 10 None "COFFEEMU-0001" (Some false) 2;
              Product.Build 5 "Coffee Filter" None (3 # 1) 10 None "COFFEEFI-0001" None 2])
    "coffee" 100
  = [coffee].
Proof. reflexivity. Qed.

(** ** The look-up by SKU *)

(** X17. On a store that satisfies its constraints, the look-up by SKU finds
    a stored product from any spelling of its SKU whose upper-casing is the
    stored SKU: the letter case of the argument does not matter, and the
    product found is the only one with that SKU. *)
Theorem get_product_by_sku_ignores_case (db : Db) (p : Product.t) (sku : string) :
  db_ok db = true ->
  In p (products db) ->
  Text.upper sku = Product.sku p ->
  get_product_by_sku db sku = Some p
  /\ (forall q, In q (products db) -> Product.sku q = Product.sku p -> q = p).
Proof.
  intros Hok Hin Hsku.
  assert (Hskus : distinct_by String.eqb (map Product.sku (products db)) = true).
  { unfold db_ok in Hok. repeat (apply andb_true_iff in Hok as [Hok ?]). assumption. }
  assert (Hfind : forall q, In q (products db) -> Product.sku q = Product.sku p ->
                            find (fun y => String.eqb (Product.sku y) (Product.sku p))
                              (products db) = Some q).
  { intros q Hq Hs. apply distinct_find; try assumption. apply string_eqb_spec. }
  split.
  - unfold get_product_by_sku. rewrite Hsku. now apply Hfind.
  - intros q Hq Hs. pose proof (Hfind q Hq Hs) as H1. rewrite (Hfind p Hin eq_refl) in H1.
    now injection H1.
Qed.

Lemma get_product_by_sku_ignores_case_witness :
  get_product_by_sku sample_db "Organicc-0001" = Some coffee
  /\ (forall q, In q (products sample_db) -> Product.sku q = Product.sku coffee -> q = coffee).
Proof.
  apply (get_product_by_sku_ignores_case sample_db coffee "Organicc-0001" eq_refl).
  - right. right. now left.
  - reflexivity.
Defined.

(** ** The characters of a SKU *)

Lemma sforall_weaken (a b : ascii -> bool) (s : string) :
  (forall c, a c = true -> b c = true) -> Text.sforall a s = true -> Text.sforall b s = true.
Proof.
  intros Hab. induction s as [|c s IH]; simpl; [reflexivity|].
  intros H. apply andb_true_iff in H as [Hc Hs]. now rewrite (Hab c Hc), IH.
Qed.

Lemma sforall_smap (pre ok : ascii -> bool) (f : ascii -> ascii) (s : string) :
  (forall c, pre c = true -> ok (f c) = true) ->
  Text.sforall pre s = true -> Text.sforall ok (Text.smap f s) = true.
Proof.
  intros Hf. induction s as [|c s IH]; simpl; [reflexivity|].
  intros H. apply andb_true_iff in H as [Hc Hs]. now rewrite (Hf c Hc), IH.
Qed.

Lemma sforall_take (ok : ascii -> bool) (n : nat) (s : string) :
  Text.sforall ok s = true -> Text.sforall ok (Text.take n s) = true.
Proof.
  revert s. induction n as [|n IH]; intros [|c s]; simpl; try reflexivity.
  intros H. apply andb_true_iff in H as [Hc Hs]. now rewrite Hc, IH.
Qed.

Lemma sforall_sfilter (a keep : ascii -> bool) (s : string) :
  Text.sforall a s = true ->
  Text.sforall (fun c => a c && keep c) (Text.sfilter keep s) = true.
Proof.
  induction s as [|c s IH]; simpl; [reflexivity|].
  intros H. apply andb_true_iff in H as [Hc Hs].
  destruct (keep c) eqn:E; simpl; [rewrite Hc, E|]; now apply IH.
Qed.

Lemma sforall_all (s : string) : Text.sforall (fun _ => true) s = true.
Proof. induction s as [|c s IH]; simpl; [reflexivity | exact IH]. Qed.

Lemma sku_char_of_alnum (c : ascii) :
  true && Text.is_alnum c = true -> sku_char (Text.to_upper c) = true.
Proof. destruct c as [[] [] [] [] [] [] [] []]; intros H; try reflexivity; discriminate H. Qed.

Lemma sku_char_of_hex (c : ascii) :
  is_hex_or_hyphen c && negb (c =? "-")%char = true -> sku_char (Text.to_upper c) = true.
Proof. destruct c as [[] [] [] [] [] [] [] []]; intros H; try reflexivity; discriminate H. Qed.

Lemma sku_char_of_digit (c : ascii) : Text.is_digit c = true -> sku_char c = true.
Proof. destruct c as [[] [] [] [] [] [] [] []]; intros H; try reflexivity; discriminate H. Qed.

Lemma sku_input_char_of_sku_char (c : ascii) : sku_char c = true -> sku_input_char c = true.
Proof. destruct c as [[] [] [] [] [] [] [] []]; intros H; try reflexivity; discriminate H. Qed.

Lemma to_upper_sku_char (c : ascii) : sku_char c = true -> Text.to_upper c = c.
Proof. destruct c as [[] [] [] [] [] [] [] []]; intros H; try reflexivity; discriminate H. Qed.


Lemma not_alnum_rest (c : ascii) :
  (if negb (Text.is_alnum c) then is_underscore_or_hyphen c else true) = sku_input_char c.
Proof. by_cases_on_char c. Qed.

Lemma clean_base_name_chars (base_name : string) :
  Text.sforall sku_char (clean_base_name base_name) = true.
Proof.
  unfold clean_base_name.
  destruct (Text.truthy (Text.take 8 (Text.upper (Text.sfilter Text.is_alnum base_name))));
    cbn [negb]; [|reflexivity].
  apply sforall_take. unfold Text.upper.
  apply sforall_smap with (pre := fun c => true && Text.is_alnum c); [apply sku_char_of_alnum|].
  apply sforall_sfilter, sforall_all.
Qed.

Lemma uuid_part_chars (uuid_text : string) :
  Text.sforall is_hex_or_hyphen uuid_text = true ->
  Text.sforall sku_char (uuid_part uuid_text) = true.
Proof.
  intros H. unfold uuid_part, Text.upper, remove_hyphens.
  apply sforall_smap with (pre := fun c => is_hex_or_hyphen c && negb (c =? "-")%char);
    [apply sku_char_of_hex|].
  apply sforall_take. now apply sforall_sfilter.
Qed.

Lemma joined_sku_chars (clean_name tail : string) :
  Text.sforall sku_char clean_name = true ->
  Text.sforall sku_char tail = true ->
  Text.sforall sku_char (clean_name ++ "-" ++ tail) = true /\ clean_name ++ "-" ++ tail <> "".
Proof.
  intros Hc Ht. split.
  - rewrite !sforall_app, Hc, Ht. reflexivity.
  - destruct clean_name; discriminate.
Qed.

(** ** The SKU validator *)

Lemma isalnum_input (s : string) : isalnum s = true -> Text.sforall sku_input_char s = true.
Proof.
  unfold isalnum. intros H. apply andb_true_iff in H as [_ H].
  apply sforall_weaken with (a := Text.is_alnum); [|exact H].
  intros c Hc. unfold sku_input_char. now rewrite Hc.
Qed.

Lemma filtered_input (s : string) :
  Text.sforall is_underscore_or_hyphen (Text.sfilter (fun c => negb (Text.is_alnum c)) s)
  = Text.sforall sku_input_char s.
Proof.
  induction s as [|c s IH]; simpl; [reflexivity|].
  rewrite <- IH, <- not_alnum_rest. now destruct (negb (Text.is_alnum c)).
Qed.

Lemma validate_sku_test (s : string) :
  validate_sku (Some s)
  = if Text.sforall sku_input_char s then Some (Some (Text.upper s)) else None.
Proof.
  unfold validate_sku. rewrite filtered_input.
  destruct (Text.sforall sku_input_char s) eqn:E; [now rewrite andb_false_r|].
  destruct (isalnum s) eqn:Ea; [|reflexivity].
  apply isalnum_input in Ea. congruence.
Qed.


Example validate_sku_samples :
  validate_sku (Some "test-001") = Some (Some "TEST-001")
  /\ validate_sku (Some "AB_12") = Some (Some "AB_12")
  /\ validate_sku (Some "AB 12") = None
  /\ validate_sku (Some "AB/12") = None.
Proof. repeat split. Qed.

(** X18. When the UUID texts drawn are made of lower-case hexadecimal digits
    and hyphens, every SKU that the generator returns is a non-empty string of
    the characters of the SKU field pattern ([A-Z], [0-9], [_], [-]), and the
    SKU validator returns it unchanged. *)
Theorem generated_sku_is_valid (db : Db) (base_name : option string) (uuid4 : nat -> string)
    (fuel : nat) (sku : string) :
  (forall draw, Text.sforall is_hex_or_hyphen (uuid4 draw) = true) ->
  generate_unique_sku db base_name uuid4 fuel = Some sku ->
  Text.sforall sku_char sku = true
  /\ sku <> ""
  /\ validate_sku (Some sku) = Some (Some sku).
Proof.
  intros Hhex Hgen.
  assert (Hclean : Text.sforall sku_char (clean_name_of base_name) = true)
    by (destruct base_name; [apply clean_base_name_chars | reflexivity]).
  assert (Hchars : Text.sforall sku_char sku = true /\ sku <> "").
  { rewrite generate_unique_sku_phases in Hgen.
    assert (Hrandom : forall s,
              random_loop db (clean_name_of base_name) uuid4 fuel 0 = Some s ->
              Text.sforall sku_char s = true /\ s <> "").
    { intros s Hs. apply random_loop_returned in Hs as [_ [k ->]].
      apply joined_sku_chars; [exact Hclean | apply uuid_part_chars, Hhex]. }
    destruct (given base_name); [|now apply Hrandom].
    destruct (counter_loop db (clean_name_of base_name) (Z.to_nat 9999) 1) as [s| |] eqn:Hloop;
      [|now apply Hrandom|discriminate].
    injection Hgen as <-. apply counter_loop_returned in Hloop as [_ [c ->]].
    apply joined_sku_chars; [exact Hclean|].
    apply sforall_weaken with (a := Text.is_digit);
      [apply sku_char_of_digit | apply format_04d_digits]. }
  destruct Hchars as [Hchars Hne]. split; [exact Hchars|]. split; [exact Hne|].
  rewrite validate_sku_test.
  rewrite (sforall_weaken sku_char sku_input_char sku sku_input_char_of_sku_char Hchars).
  unfold Text.upper. now rewrite (smap_fixed Text.to_upper sku_char sku to_upper_sku_char Hchars).
Qed.

Lemma generated_sku_is_valid_witness :
  Text.sforall sku_char "GAMINGLA-0002" = true
  /\ "GAMINGLA-0002" <> ""
  /\ validate_sku (Some "GAMINGLA-0002") = Some (Some "GAMINGLA-0002").
Proof.
  apply (generated_sku_is_valid sample_db (Some "Gaming Laptop Pro") sample_uuid 3).
  - intros [|draw]; reflexivity.
  - vm_compute. reflexivity.
Defined.

(** ** Creating, then changing *)


(** What a successful creation without a SKU in the payload went through. *)
Lemma create_product_generated (uuid4 : nat -> string) (fuel : nat) (product : ProductCreate)
    (owner_id : Z) (db db' : Db) (p : Product.t) :
  given (pc_sku product) = false ->
  create_product uuid4 fuel product owner_id db = Some (Ok p, db') ->
  generate_unique_sku db (Some (pc_name product)) uuid4 fuel = Some (Product.sku p)
  /\ Product.id p = next_id (map Product.id (products db))
  /\ db' = with_products db (products db ++ [p]).
Proof.
  intros Hnot. unfold create_product. rewrite Hnot. cbn [negb].
  destruct (generate_unique_sku db (Some (pc_name product)) uuid4 fuel) as [sku|];
    [|discriminate].
  unfold insert_product. run_service. destruct (db_ok _); [|discriminate].
  intros H. injection H as <- <-. now repeat split.
Qed.



(** X22. Two products created one after the other without a SKU in their
    payloads never share a SKU, even when they have the same name, nor an
    id. *)
Theorem successive_skus_differ (uuid4 uuid4' : nat -> string) (fuel fuel' : nat)
    (first second : ProductCreate) (owner_id owner_id' : Z) (db db1 db2 : Db)
    (p1 p2 : Product.t) :
  given (pc_sku first) = false ->
  given (pc_sku second) = false ->
  create_product uuid4 fuel first owner_id db = Some (Ok p1, db1) ->
  create_product uuid4' fuel' second owner_id' db1 = Some (Ok p2, db2) ->
  Product.sku p2 <> Product.sku p1 /\ Product.id p2 <> Product.id p1.
Proof.
  intros Hg1 Hg2 H1 H2.
  apply create_product_generated in H1 as [_ [_ ->]]; [|exact Hg1].
  apply create_product_generated in H2 as [Hgen [Hid _]]; [|exact Hg2].
  assert (Hin : In p1 (products (with_products db (products db ++ [p1])))).
  { cbn [with_products products]. apply in_or_app. right. now left. }
  split.
  - apply generated_sku_free in Hgen as [Hnone Hup].
    apply not_found_is_free in Hnone; [|exact Hup].
    intros Hsame. now apply (Hnone p1 Hin).
  - intros Hsame.
    pose proof (next_id_fresh
                  (map Product.id (products (with_products db (products db ++ [p1])))))
      as Hfresh.
    rewrite existsb_over_map in Hfresh. rewrite <- Hid in Hfresh.
    apply find_none_existsb in Hfresh.
    pose proof (find_none _ _ Hfresh p1 Hin) as H. cbn beta in H. lia.
Qed.

Lemma successive_skus_differ_witness :
  exists p1 db1 p2 db2,
    create_product sample_uuid 3 (MkProductCreate "Mouse" None (9 # 1) 3 None None) 2 sample_db
    = Some (Ok p1, db1)
    /\ create_product sample_uuid 3 (MkProductCreate "Mouse" None (7 # 1) 1 None None) 3 db1
       = Some (Ok p2, db2)
    /\ Product.sku p1 = "MOUSE-0001" /\ Product.sku p2 = "MOUSE-0002"
    /\ Product.sku p2 <> Product.sku p1 /\ Product.id p2 <> Product.id p1.
Proof.
  do 4 eexists.
  split; [vm_compute; reflexivity|]. split; [vm_compute; reflexivity|].
  split; [reflexivity|]. split; [reflexivity|].
  refine (successive_skus_differ sample_uuid sample_uuid 3 3
            (MkProductCreate "Mouse" None (9 # 1) 3 None None)
            (MkProductCreate "Mouse" None (7 # 1) 1 None None) 2 3 sample_db _ _ _ _
            eq_refl eq_refl _ _); vm_compute; reflexivity.
Defined.

(** ** The listing's response *)

(** X20. For [skip >= 0] and [limit >= 1], the listing answers with the
    products of the requested page, [size = limit] and
    [page = skip // limit + 1]; its [total] is the number of matching records
    capped at 100, the default limit of the query that counts them; and
    [pages] is the least number of pages of [limit] records that hold [total]
    records. *)
Theorem read_products_response (db : Db) (skip limit : Z) (category search : option string)
    (min_price max_price : option Q) (active_only : bool) :
  0 <= skip -> 1 <= limit ->
  let r := read_products db skip limit category search min_price max_price active_only in
  items r = get_products db skip limit category search min_price max_price active_only
  /\ size r = limit
  /\ page r = skip / limit + 1
  /\ 1 <= page r
  /\ total r = Z.min 100 (matching_count db category search min_price max_price active_only)
  /\ total r <= pages r * limit
  /\ (forall n, total r <= n * limit -> pages r <= n).
Proof.
  intros Hskip Hlimit. cbn zeta. cbn [read_products items size page total pages].
  rewrite ceil_div_formula by lia.
  destruct (ceil_div_least
              (Z.of_nat (List.length (get_products db default_skip default_limit category
                                        search min_price max_price active_only)))
              limit ltac:(lia)) as [Hcover Hleast].
  split; [reflexivity|]. split; [reflexivity|]. split; [reflexivity|].
  split; [pose proof (Z.div_pos skip limit Hskip ltac:(lia)); lia|].
  split; [apply default_count|]. split; [exact Hcover | exact Hleast].
Qed.

Lemma read_products_response_witness :
  let r := read_products sample_db 2 2 None None None None true in
  items r = get_products sample_db 2 2 None None None None true
  /\ size r = 2
  /\ page r = 2 / 2 + 1
  /\ 1 <= page r
  /\ total r = Z.min 100 (matching_count sample_db None None None None true)
  /\ total r <= pages r * 2
  /\ (forall n, total r <= n * 2 -> pages r <= n).
Proof.
  exact (read_products_response sample_db 2 2 None None None None true ltac:(lia) ltac:(lia)).
Defined.
